(** * Average-price aggregation of [src/app/page.tsx]

    A shallow embedding of the aggregation code of the page component:
    [fetchCategories], [fetchAllTeachersForCategory], [postAveragePrice] and
    the click handler [handleCalculatePrices], followed by the properties of
    the specification that are stated about them.

    Conventions of the embedding.
    - A JavaScript [number] is an IEEE 754 binary64 value: the primitive
      [float] of the kernel, whose operations are the ones of the language.
    - Counters that only ever count elements of an array ([page],
      [teachersWithPriceForCategory]) are [nat]: below 2^53 a Number counts
      exactly, and an array holds fewer than 2^32 elements.
    - A value read from a JSON body has the declared interface type; a field
      is optional, or dynamically typed, exactly where the code guards
      against it ([data.teachers || []], [teacher.categories?.find],
      [typeof ... === "number"], [category.childrenCategories || []],
      [!categories]).
    - An [async] function is a computation that issues requests, and then
      is fulfilled with a value, is rejected with a thrown value, or never
      settles.  The pipelines of the subcategories run concurrently and
      share no variable: each is a function of the answers the service
      gives to its own requests, and the order in real time of the requests
      of different pipelines is not modelled.  [console.error] writes to the
      developer console only and is left out. *)

From Stdlib Require Import List String Bool Arith ZArith Lia.
From Stdlib Require Import Uint63 Floats.
Import ListNotations.

Local Open Scope string_scope.
Local Open Scope list_scope.

(** ** Numbers *)

Definition number : Type := float.

(** The Number of a counter. *)
Definition number_of_nat (n : nat) : number :=
  PrimFloat.of_uint63 (Uint63.of_Z (Z.of_nat n)).

(** [Math.round] of ECMAScript: the integral Number closest to [x], the one
    closer to +infinity of two equally close ones; NaN, the infinities and
    the zeros are returned as they are, and a negative [x] that rounds to
    zero gives -0.  A finite [x] is [(-1)^s * m * 2^e]; with [e < 0] the
    result is [floor (x + 1/2)], computed on integers. *)
Definition Math_round (x : number) : number :=
  match Prim2SF x with
  | S754_finite s m e =>
      if (0 <=? e)%Z then x
      else
        let d := (2 ^ (- e))%Z in
        let n := (((if s then Z.neg m else Z.pos m) * 2 + d) / (2 * d))%Z in
        if (n =? 0)%Z then (if s then neg_zero else zero)
        else if (n <? 0)%Z
             then (- PrimFloat.of_uint63 (Uint63.of_Z (- n)))%float
             else PrimFloat.of_uint63 (Uint63.of_Z n)
  | _ => x
  end.

(** [x < 0] is false: every Number except the negative ones and -infinity
    (so NaN and -0 included, as in the language). *)
Definition not_negative (x : number) : Prop := (x <? 0)%float = false.

(** ** Data model: the interfaces of the page *)

(** A value of unknown dynamic type, as [typeof] sees it. *)
Inductive js_value : Type :=
| JsUndefined
| JsNull
| JsBoolean (b : bool)
| JsNumber (n : number)
| JsString (s : string).

Definition typeof (v : js_value) : string :=
  match v with
  | JsUndefined => "undefined"
  | JsNull => "object"
  | JsBoolean _ => "boolean"
  | JsNumber _ => "number"
  | JsString _ => "string"
  end.

Module Subcategory.
Record t : Type := { id : string; name : string; code : number }.
End Subcategory.

Module Category.
Record t : Type :=
  { id : string; name : string;
    childrenCategories : option (list Subcategory.t) }.
End Category.

Module TeacherCategoryInfo.
Record t : Type := { name : string; pricePerHour : js_value }.
End TeacherCategoryInfo.

Module Teacher.
Record t : Type :=
  { id : string; categories : option (list TeacherCategoryInfo.t) }.
End Teacher.

Module SearchResponse.
Record t : Type :=
  { teachers : option (list Teacher.t); totalResults : number }.
End SearchResponse.

Module Status.
Inductive t : Type := success | error.
End Status.

Module CalculationResult.
Record t : Type :=
  { categoryName : string;
    averagePrice : number;
    status : Status.t;
    message : option string }.
End CalculationResult.

(** ** Requests, thrown values and promises *)

(** The three calls of [fetch] the page makes, with the fields of their
    JSON bodies. *)
Inductive request : Type :=
| GET_categories
| POST_search (categoryId : number) (page pageSize : nat)
| POST_average_price (categoryName : string) (averagePrice : number).

(** What a [catch] clause receives: an instance of [Error] with its
    message, or any other value. *)
Inductive thrown : Type :=
| Error (message : string)
| NonError.

(** [e instanceof Error ? e.message : fallback]. *)
Definition message_or (e : thrown) (fallback : string) : string :=
  match e with
  | Error message => message
  | NonError => fallback
  end.

Inductive settled (A : Type) : Type :=
| Fulfilled (value : A)
| Rejected (reason : thrown).
Arguments Fulfilled {A} value.
Arguments Rejected {A} reason.

(** A promise, seen from the code that awaits it: the requests issued until
    it settled and how it settled, or [None] when it never settles. *)
Definition Promise (A : Type) : Type := option (list request * settled A).

Definition resolve {A : Type} (a : A) : Promise A := Some ([], Fulfilled a).
Definition throw {A : Type} (e : thrown) : Promise A := Some ([], Rejected e).

(** [await p] followed by the rest [k] of the function. *)
Definition await {A B : Type} (p : Promise A) (k : A -> Promise B) : Promise B :=
  match p with
  | None => None
  | Some (t, Rejected e) => Some (t, Rejected e)
  | Some (t, Fulfilled a) =>
      match k a with
      | None => None
      | Some (t', r) => Some (t ++ t', r)
      end
  end.

Notation "'let!' x ':=' p 'in' k" := (await p (fun x => k))
  (at level 10, x pattern, p at level 200, k at level 200).

(** [try { p } catch (e) { h e }]. *)
Definition try_catch {A : Type} (p : Promise A) (h : thrown -> Promise A) : Promise A :=
  match p with
  | Some (t, Rejected e) =>
      match h e with
      | None => None
      | Some (t', r) => Some (t ++ t', r)
      end
  | _ => p
  end.

(** [Promise.all] on promises that do not reject: it is fulfilled with the
    values in the order of the list once every promise is fulfilled, and
    never settles when one of them never does.  The requests of the promises
    are listed promise by promise: the order in real time of the requests of
    different promises is not modelled.  (The promises the handler passes
    never reject, see [processSubcategory_never_rejects]; on a rejecting
    promise this definition gives the first rejection in list order.) *)
Fixpoint Promise_all {A : Type} (ps : list (Promise A)) : Promise (list A) :=
  match ps with
  | [] => resolve []
  | p :: ps' =>
      let! a := p in
      let! l := Promise_all ps' in
      resolve (a :: l)
  end.

(** [Array.prototype.map] with the index the callback receives. *)
Fixpoint map_from {A B : Type} (f : nat -> A -> B) (i : nat) (l : list A) : list B :=
  match l with
  | [] => []
  | a :: l' => f i a :: map_from f (S i) l'
  end.

(** ** The upstream service *)

Record Response (B : Type) : Type := { ok : bool; json : settled B }.
Arguments ok {B} r.
Arguments json {B} r.

(** The answers of the upstream service.  The pipelines of the subcategories
    run concurrently and the service may answer one request differently at
    different moments, so an answer depends on who asks as well as on the
    request: the first argument of [search] and [average_price] is the index
    of the asking pipeline in the flattened list of subcategories.  A
    pipeline issues each of its requests once (the page index only grows),
    so this covers every behaviour of the service.  [fetch] rejects
    ([Rejected]) on a transport failure; a [Response] has its [ok] flag and
    the outcome of [response.json()]. *)
Record Upstream : Type :=
  { categories : settled (Response (option (list Category.t)));
    search : nat -> number -> nat -> nat -> settled (Response SearchResponse.t);
    average_price : nat -> string -> number -> settled (Response unit) }.

(** [fetch]: the request is issued and the promise settles as the service
    answers. *)
Definition fetch {B : Type} (r : request) (answer : settled (Response B))
    : Promise (Response B) :=
  Some ([r], answer).

(** [response.json()]. *)
Definition response_json {B : Type} (response : Response B) : Promise B :=
  Some ([], json response).

(** ** The functions of the page *)

Definition fetchCategories (up : Upstream) : Promise (option (list Category.t)) :=
  let! response := fetch GET_categories (categories up) in
  if negb (ok response) then throw (Error "Failed to fetch categories")
  else response_json response.

Definition pageSize : nat := 10.

(** The [while (true)] loop of [fetchAllTeachersForCategory], with the
    values of [allTeachers] and [page] at the head of the iteration; [fuel]
    bounds the number of iterations, and [None] is the loop still running. *)
Fixpoint fetchAllTeachers_loop (fuel : nat) (up : Upstream) (pipeline : nat)
    (categoryId : number) (allTeachers : list Teacher.t) (page : nat)
    : Promise (list Teacher.t) :=
  match fuel with
  | O => None
  | S fuel' =>
      let! response :=
        fetch (POST_search categoryId page pageSize)
              (search up pipeline categoryId page pageSize) in
      if negb (ok response) then resolve allTeachers
      else
        let! data := response_json response in
        let teachersOnPage :=
          match SearchResponse.teachers data with Some l => l | None => [] end in
        if Nat.eqb (List.length teachersOnPage) 0 then resolve allTeachers
        else fetchAllTeachers_loop fuel' up pipeline categoryId
               (allTeachers ++ teachersOnPage) (S page)
  end.

Definition fetchAllTeachersForCategory (fuel : nat) (up : Upstream)
    (pipeline : nat) (categoryId : number) : Promise (list Teacher.t) :=
  fetchAllTeachers_loop fuel up pipeline categoryId [] 0.

Definition postAveragePrice (up : Upstream) (pipeline : nat)
    (categoryName : string) (averagePrice : number) : Promise (Response unit) :=
  let! response :=
    fetch (POST_average_price categoryName averagePrice)
          (average_price up pipeline categoryName averagePrice) in
  if negb (ok response)
  then throw (Error ("Failed to post average price for " ++ categoryName)%string)
  else resolve response.

(** *** The aggregation inside the callback of [allSubcategories.map] *)

(** [teacher.categories?.find((cat) => cat.name === subcategory.name)]. *)
Definition relevantCategory (subcategoryName : string) (teacher : Teacher.t)
    : option TeacherCategoryInfo.t :=
  match Teacher.categories teacher with
  | None => None
  | Some cats =>
      find (fun cat => String.eqb (TeacherCategoryInfo.name cat) subcategoryName) cats
  end.

(** The two variables the [forEach] updates. *)
Record totals : Type :=
  { totalPrice : number; teachersWithPriceForCategory : nat }.

(** The body of the [forEach]: a teacher is counted when [relevantCategory]
    is found and [typeof relevantCategory.pricePerHour === "number"]. *)
Definition forEach_body (subcategoryName : string) (acc : totals)
    (teacher : Teacher.t) : totals :=
  match relevantCategory subcategoryName teacher with
  | Some cat =>
      match TeacherCategoryInfo.pricePerHour cat with
      | JsNumber price =>
          {| totalPrice := (totalPrice acc + price)%float;
             teachersWithPriceForCategory := S (teachersWithPriceForCategory acc) |}
      | _ => acc
      end
  | None => acc
  end.

Definition forEach_teachers (subcategoryName : string) (teachers : list Teacher.t)
    : totals :=
  fold_left (forEach_body subcategoryName) teachers
    {| totalPrice := 0%float; teachersWithPriceForCategory := 0 |}.

Definition averagePrice (acc : totals) : number :=
  if Nat.ltb 0 (teachersWithPriceForCategory acc)
  then (totalPrice acc / number_of_nat (teachersWithPriceForCategory acc))%float
  else 0%float.

Definition roundedAveragePrice (acc : totals) : number :=
  (Math_round (averagePrice acc * 100) / 100)%float.

(** *** The state of the component *)

Module State.
Record t : Type :=
  { isLoading : bool;
    results : list CalculationResult.t;
    error : option string }.
End State.

Definition setIsLoading (b : bool) (st : State.t) : State.t :=
  {| State.isLoading := b; State.results := State.results st;
     State.error := State.error st |}.
Definition setResults (r : list CalculationResult.t) (st : State.t) : State.t :=
  {| State.isLoading := State.isLoading st; State.results := r;
     State.error := State.error st |}.
Definition setError (e : option string) (st : State.t) : State.t :=
  {| State.isLoading := State.isLoading st; State.results := State.results st;
     State.error := e |}.

(** The state of [useState] before the first click. *)
Definition initial_state : State.t :=
  {| State.isLoading := false; State.results := []; State.error := None |}.

Section Handler.

(** The text of a Number in a template literal ([Number::toString]). *)
Variable Number_toString : number -> string.

(** The object returned at the end of the [try] block of the callback. *)
Definition success_result (subcategory : Subcategory.t) (acc : totals)
    : CalculationResult.t :=
  {| CalculationResult.categoryName := Subcategory.name subcategory;
     CalculationResult.averagePrice := roundedAveragePrice acc;
     CalculationResult.status := Status.success;
     CalculationResult.message :=
       Some ("Successfully posted average price of "
             ++ Number_toString (roundedAveragePrice acc) ++ " for "
             ++ Number_toString (number_of_nat (teachersWithPriceForCategory acc))
             ++ " teachers.")%string |}.

(** The object returned by the [catch] clause of the callback. *)
Definition error_result (subcategory : Subcategory.t) (catError : thrown)
    : CalculationResult.t :=
  {| CalculationResult.categoryName := Subcategory.name subcategory;
     CalculationResult.averagePrice := 0%float;
     CalculationResult.status := Status.error;
     CalculationResult.message :=
       Some (message_or catError "An unknown error occurred.") |}.

(** The callback of [allSubcategories.map]: the pipeline of one
    subcategory, [pipeline] being its index in [allSubcategories]. *)
Definition processSubcategory (fuel : nat) (up : Upstream) (pipeline : nat)
    (subcategory : Subcategory.t) : Promise CalculationResult.t :=
  try_catch
    (let! teachers :=
       fetchAllTeachersForCategory fuel up pipeline (Subcategory.code subcategory) in
     let acc := forEach_teachers (Subcategory.name subcategory) teachers in
     let! _ := postAveragePrice up pipeline (Subcategory.name subcategory)
                 (roundedAveragePrice acc) in
     resolve (success_result subcategory acc))
    (fun catError => resolve (error_result subcategory catError)).

(** [categories.flatMap((category) => category.childrenCategories || [])]. *)
Definition allSubcategories (cats : list Category.t) : list Subcategory.t :=
  flat_map (fun category =>
              match Category.childrenCategories category with
              | Some l => l
              | None => []
              end) cats.

(** The block of [try] in [handleCalculatePrices], entered in state [st];
    its value is the state in which the block is left. Every setter is
    called last on its path, so a throw leaves the state at [st]. *)
Definition try_block (fuel : nat) (up : Upstream) (st : State.t) : Promise State.t :=
  let! fetched := fetchCategories up in
  match fetched with
  | None | Some [] => resolve (setError (Some "No categories found.") st)
  | Some cats =>
      if Nat.eqb (List.length (allSubcategories cats)) 0
      then resolve (setError (Some "No subcategories found to process.") st)
      else
        let calculationPromises :=
          map_from (processSubcategory fuel up) 0 (allSubcategories cats) in
        let! settledResults := Promise_all calculationPromises in
        resolve (setResults settledResults st)
  end.

(** The click handler, run from state [st]: the requests it issued and the
    state it leaves, or [None] when it never finishes ([isLoading] then
    stays [true]). *)
Definition handleCalculatePrices (fuel : nat) (up : Upstream) (st : State.t)
    : option (list request * State.t) :=
  let st1 := setResults [] (setError None (setIsLoading true st)) in
  match try_block fuel up st1 with
  | None => None
  | Some (t, Fulfilled st2) => Some (t, setIsLoading false st2)
  | Some (t, Rejected e) =>
      Some (t, setIsLoading false
                 (setError (Some (message_or e "An unexpected error occurred.")) st1))
  end.

End Handler.

(** The state the three setters at the head of the handler leave, in which
    the component is rendered while the [try] block awaits. *)
Definition state_while_running (st : State.t) : State.t :=
  setResults [] (setError None (setIsLoading true st)).

(** *** What the component renders *)

(** The [main] element of the returned JSX, reduced to what depends on the
    state: the button, the note shown while loading, the error panel and the
    list of results with one [li] per result.  The fixed texts of the
    headings, the class names and the second card (which shows no state) are
    left out. *)

Module Row.
Record t : Type :=
  { key : string;
    categoryName : string;
    message : option string;
    amount : string }.
End Row.

Module View.
Record t : Type :=
  { button_disabled : bool;
    button_label : string;
    loading_note : option string;
    error_panel : option string;
    results_list : option (list Row.t) }.
End View.

Section Render.

(** [Number.prototype.toFixed]. *)
Variable Number_toFixed : number -> nat -> string.

(** The [li] of one result: [status === "success"] shows the price, any
    other status shows Failed. *)
Definition render_row (result : CalculationResult.t) : Row.t :=
  {| Row.key := CalculationResult.categoryName result;
     Row.categoryName := CalculationResult.categoryName result;
     Row.message := CalculationResult.message result;
     Row.amount :=
       match CalculationResult.status result with
       | Status.success =>
           ("$" ++ Number_toFixed (CalculationResult.averagePrice result) 2)%string
       | Status.error => "Failed"
       end |}.

(** [error && (...)] renders the panel for a string that is truthy: [null]
    and the empty string show nothing.  [results.length > 0 && !isLoading]
    guards the list. *)
Definition render (st : State.t) : View.t :=
  {| View.button_disabled := State.isLoading st;
     View.button_label :=
       if State.isLoading st then "Calculating..." else "Calculate Average Prices";
     View.loading_note :=
       if State.isLoading st then Some "Fetching categories and teachers." else None;
     View.error_panel :=
       match State.error st with
       | Some (String c rest) => Some (String c rest)
       | Some EmptyString | None => None
       end;
     View.results_list :=
       if Nat.ltb 0 (List.length (State.results st)) && negb (State.isLoading st)
       then Some (map render_row (State.results st))
       else None |}.

End Render.

(** ** Vocabulary of the statements *)

(** What one iteration of the pagination loop makes of the answer to its
    request: the batch [data.teachers || []] of a response that is [ok] and
    whose body was read, a response that is not [ok], or a rejection of
    [fetch] or of [response.json()]. *)
Inductive page_result : Type :=
| Batch (teachersOnPage : list Teacher.t)
| NotOk
| Threw (e : thrown).

Definition page_result_of (up : Upstream) (pipeline : nat) (categoryId : number)
    (page : nat) : page_result :=
  match search up pipeline categoryId page pageSize with
  | Rejected e => Threw e
  | Fulfilled response =>
      if negb (ok response) then NotOk
      else match json response with
           | Rejected e => Threw e
           | Fulfilled data =>
               Batch match SearchResponse.teachers data with
                     | Some l => l
                     | None => []
                     end
           end
  end.

(** The page carries on the pagination: a batch that is not empty. *)
Definition continues (r : page_result) : bool :=
  match r with
  | Batch (_ :: _) => true
  | _ => false
  end.

(** The page ends the pagination with the accumulated list: an empty batch
    or a response that is not [ok]. *)
Definition ends_normally (r : page_result) : bool :=
  match r with
  | Batch [] | NotOk => true
  | _ => false
  end.

(** The requests for the [n] pages of a category from page [p] on. *)
Definition page_requests (categoryId : number) (p n : nat) : list request :=
  map (fun page => POST_search categoryId page pageSize) (seq p n).

(** The pages [p], [p+1], ... of a category answer the batches [bs], none
    of them empty. *)
Fixpoint pages_are (up : Upstream) (pipeline : nat) (categoryId : number)
    (p : nat) (bs : list (list Teacher.t)) : Prop :=
  match bs with
  | [] => True
  | b :: bs' =>
      page_result_of up pipeline categoryId p = Batch b /\ b <> [] /\
      pages_are up pipeline categoryId (S p) bs'
  end.

(** The requests of a promise [pr] after the requests [t]. *)
Definition after_requests {A : Type} (t : list request) (pr : Promise A) : Promise A :=
  match pr with
  | None => None
  | Some (t', r) => Some (t ++ t', r)
  end.

(** The price a teacher contributes to a subcategory, if any: the one of the
    first category entry with that name, when it is a Number. *)
Definition contribution (subcategoryName : string) (teacher : Teacher.t)
    : option number :=
  match relevantCategory subcategoryName teacher with
  | Some cat =>
      match TeacherCategoryInfo.pricePerHour cat with
      | JsNumber price => Some price
      | _ => None
      end
  | None => None
  end.

(** [cat] is the first category entry of the teacher whose name is exactly
    [subcategoryName]. *)
Definition first_match (subcategoryName : string) (teacher : Teacher.t)
    (cat : TeacherCategoryInfo.t) : Prop :=
  exists before after,
    Teacher.categories teacher = Some (before ++ cat :: after) /\
    Forall (fun c => TeacherCategoryInfo.name c <> subcategoryName) before /\
    TeacherCategoryInfo.name cat = subcategoryName.

Definition contributing_prices (subcategoryName : string)
    (teachers : list Teacher.t) : list number :=
  flat_map (fun teacher =>
              match contribution subcategoryName teacher with
              | Some price => [price]
              | None => []
              end) teachers.

(** The sum of prices as the loop computes it: from 0, left to right. *)
Definition sum_prices (prices : list number) : number :=
  fold_left PrimFloat.add prices 0%float.

Definition count_status (s : Status.t) (l : list CalculationResult.t) : nat :=
  List.length
    (filter (fun r => match CalculationResult.status r, s with
                      | Status.success, Status.success => true
                      | Status.error, Status.error => true
                      | _, _ => false
                      end) l).

(** The pagination of the pipeline returns its listings within [fuel]
    iterations, and the publish call with their rounded average settles as
    [outcome]: fulfilled with the response, or rejected with what
    [postAveragePrice] throws. *)
Definition reaches_publish (fuel : nat) (up : Upstream) (pipeline : nat)
    (s : Subcategory.t) (outcome : settled (Response unit)) : Prop :=
  exists t teachers tp,
    fetchAllTeachersForCategory fuel up pipeline (Subcategory.code s) =
      Some (t, Fulfilled teachers) /\
    postAveragePrice up pipeline (Subcategory.name s)
      (roundedAveragePrice (forEach_teachers (Subcategory.name s) teachers)) =
      Some (tp, outcome).

(** Two services answer the pipelines other than [j] alike. *)
Definition same_for_others (j : nat) (up up' : Upstream) : Prop :=
  categories up' = categories up /\
  forall i, i <> j ->
    search up' i = search up i /\ average_price up' i = average_price up i.

(** The catalog fetch fails with [e]: [fetch] rejects, the response is not
    ok, or its body cannot be read. *)
Definition catalog_fetch_fails (up : Upstream) (e : thrown) : Prop :=
  categories up = Rejected e \/
  (exists response, categories up = Fulfilled response /\ ok response = false /\
                    e = Error "Failed to fetch categories") \/
  (exists response, categories up = Fulfilled response /\ ok response = true /\
                    json response = Rejected e).

(** Sign of a binary64 value: NaN, a zero or a positive value, and a value
    whose sign bit is clear (or NaN). *)
Definition SFnot_negative (f : spec_float) : bool :=
  match f with
  | S754_nan | S754_zero _ => true
  | S754_infinity s | S754_finite s _ _ => negb s
  end.

Definition SFsign_clear (f : spec_float) : bool :=
  match f with
  | S754_nan => true
  | S754_zero s | S754_infinity s | S754_finite s _ _ => negb s
  end.

Definition is_publish (r : request) : bool :=
  match r with
  | POST_average_price _ _ => true
  | _ => false
  end.

(** A request of a pipeline of the catalog: a search of page size 10 for
    the code of one of the subcategories, or the publication of an average
    under the name of one of them. *)
Definition request_of_catalog (subs : list Subcategory.t) (r : request) : Prop :=
  match r with
  | GET_categories => False
  | POST_search categoryId _ size =>
      size = 10 /\ exists s, In s subs /\ Subcategory.code s = categoryId
  | POST_average_price categoryName _ =>
      exists s, In s subs /\ Subcategory.name s = categoryName
  end.

(** ** Services and listings used in the examples *)

Definition teacher_with (categoryName : string) (price : js_value) : Teacher.t :=
  {| Teacher.id := "t";
     Teacher.categories :=
       Some [ {| TeacherCategoryInfo.name := categoryName;
                 TeacherCategoryInfo.pricePerHour := price |} ] |}.

Definition ok_response {B : Type} (body : B) : settled (Response B) :=
  Fulfilled {| ok := true; json := Fulfilled body |}.

(** A response with a status outside 200-299; its body is not read. *)
Definition not_ok_response {B : Type} : settled (Response B) :=
  Fulfilled {| ok := false; json := Rejected NonError |}.

Definition page_of (l : list Teacher.t) : settled (Response SearchResponse.t) :=
  ok_response {| SearchResponse.teachers := Some l;
                 SearchResponse.totalResults := 0%float |}.

(** A search service whose page [p] holds [nth p sizes 0] copies of one
    teacher, whoever asks. *)
Definition pages_of_sizes (sizes : list nat) (teacher : Teacher.t)
    : nat -> number -> nat -> nat -> settled (Response SearchResponse.t) :=
  fun _ _ page _ => page_of (repeat teacher (nth page sizes 0)).

(** A search service with [n] pages of one teacher each, that answers [last]
    for every later page. *)
Definition pages_then (n : nat) (teacher : Teacher.t)
    (last : settled (Response SearchResponse.t)) : Upstream :=
  {| categories := not_ok_response;
     search := fun _ _ page _ => if Nat.ltb page n then page_of [teacher] else last;
     average_price := fun _ _ _ => not_ok_response |}.

(** The same service, unreachable after its first [n] pages: [fetch]
    rejects with the TypeError of a transport failure. *)
Definition unreachable_after (n : nat) (teacher : Teacher.t) : Upstream :=
  pages_then n teacher (Rejected (Error "Failed to fetch")).

(** The same, with empty pages after the first [n]. *)
Definition pages_of_one (n : nat) (teacher : Teacher.t) : Upstream :=
  pages_then n teacher (page_of []).

Definition mathematics : Subcategory.t :=
  {| Subcategory.id := "s1"; Subcategory.name := "Mathematics";
     Subcategory.code := 7%float |}.
Definition physics : Subcategory.t :=
  {| Subcategory.id := "s2"; Subcategory.name := "Physics";
     Subcategory.code := 8%float |}.
Definition sciences : Category.t :=
  {| Category.id := "c1"; Category.name := "Sciences";
     Category.childrenCategories := Some [mathematics; physics] |}.

(** A service with the catalog [sciences], whose search has the pages
    [sizes] of [teacher] for every pipeline and whose publish call answers
    [publish pipeline]. *)
Definition example_service (sizes : list nat) (teacher : Teacher.t)
    (publish : nat -> settled (Response unit)) : Upstream :=
  {| categories := ok_response (Some [sciences]);
     search := pages_of_sizes sizes teacher;
     average_price := fun pipeline _ _ => publish pipeline |}.

(** The catalog [sciences] with two pages of one Physics teacher at 30 an
    hour for every pipeline; the publish call of pipeline 1 (Physics) is
    answered with a status that is not ok, the others are answered ok. *)
Definition physics_service : Upstream :=
  example_service [1; 1; 0] (teacher_with "Physics" (JsNumber 30%float))
    (fun pipeline => if Nat.eqb pipeline 1 then not_ok_response else ok_response tt).

Definition no_text : number -> string := fun _ => "".

(** The Number of the literal 10.01: the binary64 value nearest to it,
    0x1.4051eb851eb85p+3. *)
#[local] Set Warnings "-inexact-float".
Definition ten_and_one_cent : number := 10.01%float.
#[local] Set Warnings "inexact-float".

(** A category whose [childrenCategories] is missing, and one whose list
    is empty. *)
Definition languages : Category.t :=
  {| Category.id := "c2"; Category.name := "Languages";
     Category.childrenCategories := None |}.
Definition arts : Category.t :=
  {| Category.id := "c3"; Category.name := "Arts";
     Category.childrenCategories := Some [] |}.

(** A service that answers the catalog request with the body [body]. *)
Definition catalog_service (body : option (list Category.t)) : Upstream :=
  {| categories := ok_response body;
     search := fun _ _ _ _ => not_ok_response;
     average_price := fun _ _ _ => ok_response tt |}.

Definition two_decimals : number -> nat -> string := fun _ _ => "0.00".

(** * Properties *)

(** ** The pagination loop *)

Section Pagination.

Variables (up : Upstream) (pipeline : nat) (categoryId : number).

Local Abbreviation loop fuel := (fetchAllTeachers_loop fuel up pipeline categoryId).
Local Abbreviation result_of := (page_result_of up pipeline categoryId).

(** One iteration, by the kind of the answer. *)
Lemma fetchAllTeachers_loop_S (fuel : nat) (acc : list Teacher.t) (p : nat) :
  loop (S fuel) acc p =
  match result_of p with
  | Threw e => Some ([POST_search categoryId p pageSize], Rejected e)
  | NotOk | Batch [] => Some ([POST_search categoryId p pageSize], Fulfilled acc)
  | Batch (a :: l) =>
      after_requests [POST_search categoryId p pageSize]
        (loop fuel (acc ++ a :: l) (S p))
  end.
Proof.
  unfold page_result_of. cbn [fetchAllTeachers_loop await fetch].
  destruct (search up pipeline categoryId p pageSize) as [response|e]; [|reflexivity].
  destruct (ok response); cbn [negb]; [|reflexivity].
  unfold response_json.
  destruct (json response) as [[[[|a l]|] total]|e]; cbn; try reflexivity.
  destruct (fetchAllTeachers_loop fuel up pipeline categoryId (acc ++ a :: l) (S p))
    as [[t r]|]; reflexivity.
Qed.

Lemma after_requests_app {A : Type} (t1 t2 : list request) (pr : Promise A) :
  after_requests t1 (after_requests t2 pr) = after_requests (t1 ++ t2) pr.
Proof. destruct pr as [[t r]|]; cbn; [now rewrite app_assoc|reflexivity]. Qed.

(** The loop runs through a run of batches. *)
Lemma loop_through_batches (bs : list (list Teacher.t)) :
  forall (fuel p : nat) (acc : list Teacher.t),
    pages_are up pipeline categoryId p bs ->
    loop (List.length bs + fuel) acc p =
    after_requests (page_requests categoryId p (List.length bs))
      (loop fuel (acc ++ List.concat bs) (p + List.length bs)).
Proof.
  induction bs as [|b bs IH]; intros fuel p acc Hp.
  - cbn. rewrite app_nil_r, Nat.add_0_r.
    destruct (loop fuel acc p) as [[t r]|]; reflexivity.
  - destruct Hp as (Hb & Hne & Hrest).
    cbn [List.length Nat.add]. rewrite fetchAllTeachers_loop_S.
    rewrite Hb.
    destruct b as [|a l]; [congruence|].
    rewrite (IH fuel (S p) _ Hrest), after_requests_app.
    cbn [List.concat]. rewrite <- app_assoc, Nat.add_succ_r. reflexivity.
Qed.

(** Before the end of the batches the loop is still running. *)
Lemma loop_running (bs : list (list Teacher.t)) :
  forall (fuel p : nat) (acc : list Teacher.t),
    pages_are up pipeline categoryId p bs ->
    fuel <= List.length bs ->
    loop fuel acc p = None.
Proof.
  induction bs as [|b bs IH]; intros fuel p acc Hp Hfuel.
  - cbn in Hfuel. assert (fuel = 0) by lia. subst. reflexivity.
  - destruct fuel as [|fuel]; [reflexivity|].
    destruct Hp as (Hb & Hne & Hrest). cbn in Hfuel.
    rewrite fetchAllTeachers_loop_S. rewrite Hb.
    destruct b as [|a l]; [congruence|].
    rewrite (IH fuel (S p) _ Hrest) by lia. reflexivity.
Qed.

(** More fuel does not change a result. *)
Lemma loop_more_fuel (fuel : nat) :
  forall (extra p : nat) (acc : list Teacher.t) out,
    loop fuel acc p = Some out -> loop (fuel + extra) acc p = Some out.
Proof.
  induction fuel as [|fuel IH]; intros extra p acc out H; [discriminate|].
  cbn [Nat.add]. rewrite fetchAllTeachers_loop_S in *.
  destruct (result_of p) as [[|a l]| |e]; try assumption.
  destruct (loop fuel (acc ++ a :: l) (S p)) as [o|] eqn:E; [|discriminate].
  now rewrite (IH extra _ _ _ E).
Qed.

(** The loop stops at the latest on a page that does not carry on. *)
Lemma loop_terminates (k : nat) :
  forall (p : nat) (acc : list Teacher.t),
    continues (result_of (p + k)) = false ->
    exists fuel out, fuel <= S k /\ loop fuel acc p = Some out.
Proof.
  induction k as [|k IH]; intros p acc Hk.
  - rewrite Nat.add_0_r in Hk. exists 1. rewrite fetchAllTeachers_loop_S.
    destruct (result_of p) as [[|a l]| |e]; try discriminate; eauto.
  - destruct (result_of p) as [[|a l]| |e] eqn:E.
    1,3,4: exists 1; rewrite fetchAllTeachers_loop_S, E; eauto with arith.
    rewrite Nat.add_succ_r in Hk.
    destruct (IH (S p) (acc ++ a :: l) Hk) as (fuel & [t r] & Hle & Hrun).
    exists (S fuel). rewrite fetchAllTeachers_loop_S, E, Hrun. cbn.
    eexists. split; [lia|reflexivity].
Qed.

(** A service that always has one more batch keeps the loop running. *)
Lemma loop_diverges (fuel : nat) :
  forall (p : nat) (acc : list Teacher.t),
    (forall q, continues (result_of q) = true) ->
    loop fuel acc p = None.
Proof.
  induction fuel as [|fuel IH]; intros p acc Hc; [reflexivity|].
  rewrite fetchAllTeachers_loop_S. specialize (Hc p) as Hp.
  destruct (result_of p) as [[|a l]| |e]; try discriminate.
  now rewrite IH.
Qed.


(** A rejected pagination was rejected by the answer to its last request. *)
Lemma loop_rejected_page (fuel : nat) :
  forall (p : nat) (acc : list Teacher.t) t e,
    loop fuel acc p = Some (t, Rejected e) ->
    exists q, p + List.length t = S q /\ result_of q = Threw e.
Proof.
  induction fuel as [|fuel IH]; intros p acc t e H; [discriminate|].
  rewrite fetchAllTeachers_loop_S in H.
  destruct (result_of p) as [[|a l]| |e'] eqn:E; try discriminate.
  - destruct (loop fuel (acc ++ a :: l) (S p)) as [[t' r']|] eqn:E'; [|discriminate].
    injection H as <- ->. destruct (IH _ _ _ _ E') as (q & Hq & Hthrew).
    exists q. split; [cbn; lia|assumption].
  - injection H as <- <-. exists p. split; [cbn; lia|assumption].
Qed.

(** The loop issues one request per iteration. *)
Lemma loop_requests_bound (fuel : nat) :
  forall (p : nat) (acc : list Teacher.t) t r,
    loop fuel acc p = Some (t, r) -> 1 <= List.length t <= fuel.
Proof.
  induction fuel as [|fuel IH]; intros p acc t r H; [discriminate|].
  rewrite fetchAllTeachers_loop_S in H.
  destruct (result_of p) as [[|a l]| |e]; try (injection H as <- _; cbn; lia).
  destruct (loop fuel (acc ++ a :: l) (S p)) as [[t' r']|] eqn:E; [|discriminate].
  injection H as <- _. apply IH in E. cbn. lia.
Qed.

(** The pagination whose first pages are the batches [bs] and whose next
    page ends it normally. *)
Lemma pagination_result (bs : list (list Teacher.t)) (fuel : nat) :
  pages_are up pipeline categoryId 0 bs ->
  ends_normally (result_of (List.length bs)) = true ->
  List.length bs < fuel ->
  fetchAllTeachersForCategory fuel up pipeline categoryId =
  Some (page_requests categoryId 0 (S (List.length bs)), Fulfilled (List.concat bs)).
Proof.
  intros Hp He Hfuel. unfold fetchAllTeachersForCategory.
  replace fuel with (List.length bs + S (fuel - S (List.length bs))) by lia.
  rewrite (loop_through_batches bs _ 0 [] Hp), fetchAllTeachers_loop_S. cbn [Nat.add app].
  unfold page_requests. rewrite seq_S, map_app. cbn [map Nat.add].
  destruct (result_of (List.length bs)) as [[|a l]| |e]; try discriminate; reflexivity.
Qed.

End Pagination.

(** A rejected [fetch], or a body that cannot be read, is not a failed page
    in the sense of the loop: the exception leaves the function. *)
Lemma pager_throws_on_rejection (up : Upstream) (pipeline : nat)
    (categoryId : number) (bs : list (list Teacher.t)) (e : thrown) (fuel : nat) :
  pages_are up pipeline categoryId 0 bs ->
  page_result_of up pipeline categoryId (List.length bs) = Threw e ->
  List.length bs < fuel ->
  fetchAllTeachersForCategory fuel up pipeline categoryId =
  Some (page_requests categoryId 0 (S (List.length bs)), Rejected e).
Proof.
  intros Hp He Hfuel. unfold fetchAllTeachersForCategory.
  replace fuel with (List.length bs + S (fuel - S (List.length bs))) by lia.
  rewrite (loop_through_batches _ _ _ bs _ 0 [] Hp), fetchAllTeachers_loop_S.
  cbn [Nat.add app]. rewrite He. cbn [after_requests].
  unfold page_requests. rewrite seq_S, map_app. reflexivity.
Qed.

Lemma pages_then_pages (n : nat) (teacher : Teacher.t)
    (last : settled (Response SearchResponse.t)) (pipeline : nat)
    (categoryId : number) :
  forall k p, p + k = n ->
    pages_are (pages_then n teacher last) pipeline categoryId p (repeat [teacher] k).
Proof.
  induction k as [|k IH]; intros p Hp; cbn [repeat pages_are]; [exact I|].
  split; [|split; [discriminate|apply IH; lia]].
  unfold page_result_of. cbn -[Nat.ltb].
  destruct (Nat.ltb_spec p n) as [_|Hge]; [reflexivity|lia].
Qed.

(** C3. The pager requests pages of size 10 from page 0 on, one page index
    after the other; it appends every batch that is not empty and goes on,
    and it stops at the first empty batch, not before: when the pages
    [0 .. k-1] answer the non-empty batches [bs] and page [k] an empty one,
    the pager is still running after [k] requests, and it returns the
    concatenation of [bs] after the [k+1] requests for the pages [0 .. k].
    With batches of 10, 10 and 3 listings followed by an empty one, it
    returns 23 listings after the 4 requests for the pages 0, 1, 2, 3. *)
Theorem pager_stops_at_first_empty_batch :
  pageSize = 10 /\
  (forall (up : Upstream) (pipeline : nat) (categoryId : number)
          (bs : list (list Teacher.t)),
      pages_are up pipeline categoryId 0 bs ->
      page_result_of up pipeline categoryId (List.length bs) = Batch [] ->
      (forall fuel, fuel <= List.length bs ->
         fetchAllTeachersForCategory fuel up pipeline categoryId = None) /\
      (forall fuel, List.length bs < fuel ->
         fetchAllTeachersForCategory fuel up pipeline categoryId =
         Some (page_requests categoryId 0 (S (List.length bs)),
               Fulfilled (List.concat bs)))) /\
  (forall (up : Upstream) (pipeline : nat) (categoryId : number)
          (bs : list (list Teacher.t)),
      pages_are up pipeline categoryId 0 bs ->
      map (@List.length Teacher.t) bs = [10; 10; 3] ->
      page_result_of up pipeline categoryId 3 = Batch [] ->
      exists listings,
        fetchAllTeachersForCategory 4 up pipeline categoryId =
        Some ([POST_search categoryId 0 10; POST_search categoryId 1 10;
               POST_search categoryId 2 10; POST_search categoryId 3 10],
              Fulfilled listings) /\
        List.length listings = 23).
Proof.
  split; [reflexivity|]. split.
  - intros up pipeline categoryId bs Hp He. split; intros fuel Hfuel.
    + apply (loop_running _ _ _ bs); assumption.
    + apply pagination_result; [assumption| now rewrite He |assumption].
  - intros up pipeline categoryId bs Hp Hlen He.
    assert (Hk : List.length bs = 3).
    { rewrite <- (length_map (@List.length Teacher.t)), Hlen. reflexivity. }
    exists (List.concat bs). split.
    + rewrite (pagination_result up pipeline categoryId bs 4 Hp).
      * rewrite Hk. reflexivity.
      * rewrite Hk, He. reflexivity.
      * lia.
    + destruct bs as [|b1 [|b2 [|b3 [|b4 bs]]]]; try discriminate.
      injection Hlen as H1 H2 H3. cbn. rewrite !length_app, H1, H2, H3. reflexivity.
Qed.

Lemma pager_stops_at_first_empty_batch_witness :
  exists listings,
    fetchAllTeachersForCategory 4
      (example_service [10; 10; 3; 0] (teacher_with "Mathematics" (JsNumber 25%float))
         (fun _ => ok_response tt))
      0 (Subcategory.code mathematics) =
    Some ([POST_search 7%float 0 10; POST_search 7%float 1 10;
           POST_search 7%float 2 10; POST_search 7%float 3 10],
          Fulfilled listings) /\
    List.length listings = 23.
Proof.
  set (teacher := teacher_with "Mathematics" (JsNumber 25%float)).
  apply (proj2 (proj2 pager_stops_at_first_empty_batch) _ 0 _
           [repeat teacher 10; repeat teacher 10; repeat teacher 3]).
  - cbn. repeat split; discriminate.
  - reflexivity.
  - reflexivity.
Defined.

(** C4, as the specification states it, fails: a page request that is
    rejected ends the pagination too, and then no list is returned. *)
Lemma pager_may_end_without_a_list :
  continues
    (page_result_of (unreachable_after 1 (teacher_with "Physics" (JsNumber 30%float)))
       0 8%float 1) = false /\
  forall fuel t listings,
    fetchAllTeachersForCategory fuel
      (unreachable_after 1 (teacher_with "Physics" (JsNumber 30%float))) 0 8%float
    <> Some (t, Fulfilled listings).
Proof.
  split; [reflexivity|]. intros fuel t listings.
  set (teacher := teacher_with "Physics" (JsNumber 30%float)).
  assert (Hp : pages_are (unreachable_after 1 teacher) 0 8%float 0 [[teacher]])
    by (cbn; repeat split; discriminate).
  destruct (le_lt_dec fuel 1) as [Hle|Hlt].
  - unfold fetchAllTeachersForCategory.
    now rewrite (loop_running _ _ _ [[teacher]] fuel 0 [] Hp Hle).
  - now rewrite (pager_throws_on_rejection _ _ _ [[teacher]]
                   (Error "Failed to fetch") fuel Hp eq_refl Hlt).
Qed.

(** C4, amended. When some page does not carry on the pagination (an empty
    batch, a response that is not ok, or a request that is rejected or
    whose body cannot be read), the pager terminates within one request per
    page up to that page, and more time does not change its result: a list,
    unless an answer up to that page threw, and then what it threw.
    Nothing else bounds the number of requests: for every [n] there is a
    service for which the pager makes exactly [n+1] requests, and against a
    service that always has one more batch it never returns. *)
Theorem pager_terminates_at_first_stop_only :
  (forall (up : Upstream) (pipeline : nat) (categoryId : number) (k : nat),
      continues (page_result_of up pipeline categoryId k) = false ->
      exists fuel t r,
        fuel <= S k /\ List.length t <= S k /\
        (forall fuel', fuel <= fuel' ->
           fetchAllTeachersForCategory fuel' up pipeline categoryId = Some (t, r)) /\
        ((forall q e, q <= k -> page_result_of up pipeline categoryId q <> Threw e) ->
         exists listings, r = Fulfilled listings) /\
        (forall e, r = Rejected e ->
           exists q, q <= k /\ page_result_of up pipeline categoryId q = Threw e)) /\
  (forall (n : nat) (categoryId : number),
      exists (up : Upstream) (listings : list Teacher.t),
        (forall fuel, fuel <= n ->
           fetchAllTeachersForCategory fuel up 0 categoryId = None) /\
        fetchAllTeachersForCategory (S n) up 0 categoryId =
        Some (page_requests categoryId 0 (S n), Fulfilled listings) /\
        List.length (page_requests categoryId 0 (S n)) = S n) /\
  (forall (up : Upstream) (pipeline : nat) (categoryId : number),
      (forall q, continues (page_result_of up pipeline categoryId q) = true) ->
      forall fuel, fetchAllTeachersForCategory fuel up pipeline categoryId = None).
Proof.
  split; [|split].
  - intros up pipeline categoryId k Hk.
    destruct (loop_terminates up pipeline categoryId k 0 [] Hk)
      as (fuel & [t r] & Hle & Hrun).
    assert (Hlen := loop_requests_bound _ _ _ _ _ _ _ _ Hrun).
    assert (Hrej : forall e, r = Rejected e ->
              exists q, q <= k /\ page_result_of up pipeline categoryId q = Threw e).
    { intros e ->. destruct (loop_rejected_page _ _ _ _ _ _ _ _ Hrun) as (q & Hq & Hthrew).
      exists q. split; [cbn in Hq; lia|assumption]. }
    exists fuel, t, r. repeat split.
    + assumption.
    + lia.
    + intros fuel' Hfuel'. unfold fetchAllTeachersForCategory.
      replace fuel' with (fuel + (fuel' - fuel)) by lia.
      now apply loop_more_fuel.
    + intros Hno. destruct r as [listings|e]; [eauto|].
      destruct (Hrej e eq_refl) as (q & Hq & Hthrew). now destruct (Hno q e Hq).
    + assumption.
  - intros n categoryId.
    set (teacher := teacher_with "Mathematics" (JsNumber 25%float)).
    exists (pages_of_one n teacher), (List.concat (repeat [teacher] n)).
    assert (Hp := pages_then_pages n teacher (page_of []) 0 categoryId n 0 eq_refl).
    repeat split.
    + intros fuel Hfuel. apply (loop_running _ _ _ (repeat [teacher] n)).
      * assumption.
      * now rewrite repeat_length.
    + rewrite (pagination_result _ 0 categoryId (repeat [teacher] n));
        rewrite ?repeat_length; try reflexivity; try assumption; try lia.
      unfold page_result_of. cbn -[Nat.ltb]. rewrite Nat.ltb_irrefl. reflexivity.
    + unfold page_requests. now rewrite length_map, length_seq.
  - intros up pipeline categoryId Hc fuel. now apply loop_diverges.
Qed.

Lemma pager_terminates_at_first_stop_only_witness :
  exists fuel t r,
    fuel <= 3 /\ List.length t <= 3 /\
    (forall fuel', fuel <= fuel' ->
       fetchAllTeachersForCategory fuel'
         (pages_of_one 2 (teacher_with "Physics" JsNull)) 0 8%float = Some (t, r)) /\
    ((forall q e, q <= 2 ->
         page_result_of (pages_of_one 2 (teacher_with "Physics" JsNull)) 0 8%float q
         <> Threw e) ->
     exists listings, r = Fulfilled listings) /\
    (forall e, r = Rejected e ->
       exists q, q <= 2 /\
         page_result_of (pages_of_one 2 (teacher_with "Physics" JsNull)) 0 8%float q
         = Threw e).
Proof.
  apply (proj1 pager_terminates_at_first_stop_only
           (pages_of_one 2 (teacher_with "Physics" JsNull)) 0 8%float 2).
  reflexivity.
Defined.

(** C5, as the specification states it, fails: when the request for page 2
    is rejected after two pages that were not empty, the pager throws and
    the two listings are not returned. *)
Lemma rejected_page_request_is_thrown :
  pages_are (unreachable_after 2 (teacher_with "Physics" (JsNumber 30%float)))
    0 8%float 0
    [[teacher_with "Physics" (JsNumber 30%float)];
     [teacher_with "Physics" (JsNumber 30%float)]] /\
  search (unreachable_after 2 (teacher_with "Physics" (JsNumber 30%float)))
    0 8%float 2 pageSize = Rejected (Error "Failed to fetch") /\
  fetchAllTeachersForCategory 3
    (unreachable_after 2 (teacher_with "Physics" (JsNumber 30%float))) 0 8%float =
  Some ([POST_search 8%float 0 10; POST_search 8%float 1 10; POST_search 8%float 2 10],
        Rejected (Error "Failed to fetch")).
Proof.
  split; [cbn; repeat split; discriminate|]. split; reflexivity.
Qed.

(** C5, amended. After [k] pages that were not empty, when the response for
    page [k] is not ok the pager makes no further request and returns,
    without throwing, exactly the listings of the pages [0 .. k-1]; what it
    returns is what it returns when page [k] is an empty batch, so the
    caller cannot tell a partial result from a complete one.  When instead
    the request for page [k] is rejected, or the body of its response cannot
    be read, the pager throws what was thrown and returns no listing. *)
Theorem pager_degrades_on_response_not_ok :
  forall (up : Upstream) (pipeline : nat) (categoryId : number)
         (bs : list (list Teacher.t)) (fuel : nat),
    pages_are up pipeline categoryId 0 bs ->
    List.length bs < fuel ->
    (page_result_of up pipeline categoryId (List.length bs) = NotOk ->
     fetchAllTeachersForCategory fuel up pipeline categoryId =
     Some (page_requests categoryId 0 (S (List.length bs)), Fulfilled (List.concat bs)) /\
     forall up' : Upstream,
       pages_are up' pipeline categoryId 0 bs ->
       page_result_of up' pipeline categoryId (List.length bs) = Batch [] ->
       fetchAllTeachersForCategory fuel up' pipeline categoryId =
       fetchAllTeachersForCategory fuel up pipeline categoryId) /\
    (forall e : thrown,
       page_result_of up pipeline categoryId (List.length bs) = Threw e ->
       fetchAllTeachersForCategory fuel up pipeline categoryId =
       Some (page_requests categoryId 0 (S (List.length bs)), Rejected e)).
Proof.
  intros up pipeline categoryId bs fuel Hp Hfuel. split.
  - intros He.
    assert (H : fetchAllTeachersForCategory fuel up pipeline categoryId =
                Some (page_requests categoryId 0 (S (List.length bs)),
                      Fulfilled (List.concat bs))).
    { apply pagination_result; [assumption| now rewrite He |assumption]. }
    split; [exact H|].
    intros up' Hp' He'. rewrite H.
    apply pagination_result; [assumption| now rewrite He' |assumption].
  - intros e He. now apply pager_throws_on_rejection.
Qed.

Lemma pager_degrades_on_response_not_ok_witness :
  fetchAllTeachersForCategory 3
    (pages_then 2 (teacher_with "Physics" (JsNumber 30%float)) not_ok_response)
    1 8%float =
  Some (page_requests 8%float 0 3,
        Fulfilled [teacher_with "Physics" (JsNumber 30%float);
                   teacher_with "Physics" (JsNumber 30%float)]) /\
  forall up' : Upstream,
    pages_are up' 1 8%float 0
      [[teacher_with "Physics" (JsNumber 30%float)];
       [teacher_with "Physics" (JsNumber 30%float)]] ->
    page_result_of up' 1 8%float 2 = Batch [] ->
    fetchAllTeachersForCategory 3 up' 1 8%float =
    fetchAllTeachersForCategory 3
      (pages_then 2 (teacher_with "Physics" (JsNumber 30%float)) not_ok_response)
      1 8%float.
Proof.
  apply (pager_degrades_on_response_not_ok
           (pages_then 2 (teacher_with "Physics" (JsNumber 30%float)) not_ok_response)
           1 8%float
           [[teacher_with "Physics" (JsNumber 30%float)];
            [teacher_with "Physics" (JsNumber 30%float)]] 3).
  - cbn. repeat split; discriminate.
  - cbn. lia.
  - reflexivity.
Defined.

(** ** Numbers *)

(** [Math.round] on halves: the tie goes towards +infinity. *)
Example Math_round_ties :
  Math_round 2.5%float = 3%float /\ Math_round (-2.5)%float = (-2)%float /\
  Math_round 0.5%float = 1%float /\ Math_round (-0.5)%float = neg_zero /\
  Math_round 1000.25%float = 1000%float /\ Math_round nan = nan.
Proof. repeat split; reflexivity. Qed.

Lemma ten_and_one_cent_bits : ten_and_one_cent = 0x1.4051eb851eb85p+3%float.
Proof. reflexivity. Qed.

Lemma typeof_number (v : js_value) :
  typeof v = "number" <-> exists n, v = JsNumber n.
Proof.
  split; [|intros (n & ->); reflexivity].
  destruct v; try discriminate. eauto.
Qed.

(** ** Signs of binary64 results *)

Lemma Prim2SF_zero : Prim2SF 0%float = S754_zero false.
Proof. reflexivity. Qed.

Lemma not_negative_spec (x : number) :
  not_negative x <-> SFnot_negative (Prim2SF x) = true.
Proof.
  unfold not_negative. rewrite ltb_spec, Prim2SF_zero.
  destruct (Prim2SF x) as [s|s| |s m e]; try destruct s; cbn; intuition congruence.
Qed.

Lemma SFsign_clear_not_negative (f : spec_float) :
  SFsign_clear f = true -> SFnot_negative f = true.
Proof. destruct f; cbn; auto. Qed.

Lemma binary_round_aux_sign_clear (m e : Z) (l : location) :
  SFsign_clear (binary_round_aux prec emax false m e l) = true.
Proof.
  unfold binary_round_aux.
  destruct (shr_fexp prec emax m e l) as [mrs' e'].
  destruct (shr_fexp prec emax _ e' loc_Exact) as [mrs'' e''].
  destruct (shr_m mrs''); [reflexivity| |reflexivity].
  destruct (Z.leb e'' (emax - prec)); reflexivity.
Qed.

Lemma binary_normalize_sign_clear (m e : Z) :
  (0 <= m)%Z -> SFsign_clear (binary_normalize prec emax m e false) = true.
Proof.
  intros Hm. destruct m as [|m|m]; [reflexivity| |lia].
  unfold binary_normalize, binary_round.
  destruct (shl_align m e _) as [mz ez]. apply binary_round_aux_sign_clear.
Qed.

Lemma SFadd_not_negative (x y : spec_float) :
  SFnot_negative x = true -> SFnot_negative y = true ->
  SFnot_negative (SFadd prec emax x y) = true.
Proof.
  destruct x as [sx|sx| |sx mx ex], y as [sy|sy| |sy my ey];
    try destruct sx; try destruct sy; try discriminate; try reflexivity.
  intros _ _. apply SFsign_clear_not_negative.
  unfold SFadd, cond_Zopp. apply binary_normalize_sign_clear. lia.
Qed.

Lemma SFmul_not_negative (x y : spec_float) :
  SFnot_negative x = true -> SFsign_clear y = true ->
  SFnot_negative (SFmul prec emax x y) = true.
Proof.
  destruct x as [sx|sx| |sx mx ex], y as [sy|sy| |sy my ey];
    try destruct sx; try destruct sy; try discriminate; try reflexivity.
  intros _ _. apply SFsign_clear_not_negative, binary_round_aux_sign_clear.
Qed.

Lemma SFdiv_not_negative (x y : spec_float) :
  SFnot_negative x = true -> SFsign_clear y = true ->
  SFnot_negative (SFdiv prec emax x y) = true.
Proof.
  destruct x as [sx|sx| |sx mx ex], y as [sy|sy| |sy my ey];
    try destruct sx; try destruct sy; try discriminate; try reflexivity.
  intros _ _. apply SFsign_clear_not_negative. unfold SFdiv.
  destruct (SFdiv_core_binary prec emax (Z.pos mx) ex (Z.pos my) ey) as [[mz ez] lz].
  apply binary_round_aux_sign_clear.
Qed.

Lemma add_not_negative (x y : number) :
  not_negative x -> not_negative y -> not_negative (x + y)%float.
Proof.
  rewrite !not_negative_spec, add_spec. apply SFadd_not_negative.
Qed.

Lemma mul_not_negative (x y : number) :
  not_negative x -> SFsign_clear (Prim2SF y) = true -> not_negative (x * y)%float.
Proof.
  rewrite !not_negative_spec, mul_spec. apply SFmul_not_negative.
Qed.

Lemma div_not_negative (x y : number) :
  not_negative x -> SFsign_clear (Prim2SF y) = true -> not_negative (x / y)%float.
Proof.
  rewrite !not_negative_spec, div_spec. apply SFdiv_not_negative.
Qed.

Lemma of_uint63_sign_clear (n : int) :
  SFsign_clear (Prim2SF (PrimFloat.of_uint63 n)) = true.
Proof.
  rewrite of_uint63_spec. apply binary_normalize_sign_clear.
  apply Uint63.to_Z_bounded.
Qed.

Lemma Math_round_not_negative (x : number) :
  not_negative x -> not_negative (Math_round x).
Proof.
  intros Hx. assert (Hs := proj1 (not_negative_spec x) Hx).
  unfold Math_round. destruct (Prim2SF x) as [s|s| |s m e]; try assumption.
  destruct s; [discriminate|].
  destruct (Z.leb 0 e); [assumption|].
  set (d := (2 ^ (- e))%Z).
  set (n := ((Z.pos m * 2 + d) / (2 * d))%Z).
  destruct (Z.eqb n 0); [reflexivity|].
  destruct (Z.ltb_spec n 0) as [Hneg|_].
  - exfalso. assert (0 <= d)%Z by (apply Z.pow_nonneg; lia).
    assert (0 <= n)%Z; [|lia]. subst n.
    destruct (Z.eq_dec d 0) as [->|Hd]; [cbn; lia|].
    apply Z.div_pos; lia.
  - apply not_negative_spec, SFsign_clear_not_negative, of_uint63_sign_clear.
Qed.

Lemma sum_not_negative (prices : list number) :
  forall acc : number,
    not_negative acc -> Forall not_negative prices ->
    not_negative (fold_left PrimFloat.add prices acc).
Proof.
  induction prices as [|price prices IH]; intros acc Hacc Hall; [assumption|].
  inversion Hall; subst. cbn. apply IH; [now apply add_not_negative|assumption].
Qed.

(** ** The aggregation *)

Lemma relevantCategory_first_match (subcategoryName : string) (teacher : Teacher.t)
    (cat : TeacherCategoryInfo.t) :
  relevantCategory subcategoryName teacher = Some cat <->
  first_match subcategoryName teacher cat.
Proof.
  unfold relevantCategory, first_match.
  destruct (Teacher.categories teacher) as [cats|].
  2: { split; [discriminate|]. intros (before & after & H & _). discriminate. }
  split.
  - induction cats as [|c cats IH]; cbn; [discriminate|].
    destruct (String.eqb_spec (TeacherCategoryInfo.name c) subcategoryName) as [Heq|Hne].
    + intros [= ->]. exists [], cats. auto.
    + intros H. destruct (IH H) as (before & after & [= ->] & Hall & Hname).
      exists (c :: before), after. auto.
  - intros (before & after & [= ->] & Hall & Hname).
    induction Hall as [|c before Hc _ IH]; cbn.
    + now rewrite Hname, String.eqb_refl.
    + destruct (String.eqb_spec (TeacherCategoryInfo.name c) subcategoryName);
        [contradiction|exact IH].
Qed.

Lemma forEach_body_contribution (subcategoryName : string) (acc : totals)
    (teacher : Teacher.t) :
  forEach_body subcategoryName acc teacher =
  match contribution subcategoryName teacher with
  | Some price =>
      {| totalPrice := (totalPrice acc + price)%float;
         teachersWithPriceForCategory := S (teachersWithPriceForCategory acc) |}
  | None => acc
  end.
Proof.
  unfold forEach_body, contribution.
  destruct (relevantCategory subcategoryName teacher) as [cat|]; [|reflexivity].
  destruct (TeacherCategoryInfo.pricePerHour cat); reflexivity.
Qed.

Lemma contribution_first_match (subcategoryName : string) (teacher : Teacher.t)
    (price : number) :
  contribution subcategoryName teacher = Some price <->
  exists cat, first_match subcategoryName teacher cat /\
              TeacherCategoryInfo.pricePerHour cat = JsNumber price.
Proof.
  unfold contribution. split.
  - destruct (relevantCategory subcategoryName teacher) as [cat|] eqn:E; [|discriminate].
    apply relevantCategory_first_match in E.
    destruct (TeacherCategoryInfo.pricePerHour cat) eqn:Ep; try discriminate.
    intros [= ->]. eauto.
  - intros (cat & Hfirst & Hp). apply relevantCategory_first_match in Hfirst.
    now rewrite Hfirst, Hp.
Qed.

Lemma fold_forEach_body (subcategoryName : string) (teachers : list Teacher.t) :
  forall acc : totals,
    fold_left (forEach_body subcategoryName) teachers acc =
    {| totalPrice :=
         fold_left PrimFloat.add (contributing_prices subcategoryName teachers)
           (totalPrice acc);
       teachersWithPriceForCategory :=
         teachersWithPriceForCategory acc
         + List.length (contributing_prices subcategoryName teachers) |}.
Proof.
  induction teachers as [|teacher teachers IH]; intros acc.
  - cbn. rewrite Nat.add_0_r. now destruct acc.
  - cbn [fold_left contributing_prices flat_map].
    rewrite IH, forEach_body_contribution. fold (contributing_prices subcategoryName teachers).
    destruct (contribution subcategoryName teacher) as [price|]; cbn;
      [now rewrite Nat.add_succ_r|reflexivity].
Qed.

Lemma forEach_teachers_totals (subcategoryName : string) (teachers : list Teacher.t) :
  forEach_teachers subcategoryName teachers =
  {| totalPrice := sum_prices (contributing_prices subcategoryName teachers);
     teachersWithPriceForCategory :=
       List.length (contributing_prices subcategoryName teachers) |}.
Proof. unfold forEach_teachers. now rewrite fold_forEach_body. Qed.

Lemma In_contributing_prices (subcategoryName : string) (teachers : list Teacher.t)
    (price : number) :
  In price (contributing_prices subcategoryName teachers) ->
  exists teacher, In teacher teachers /\
                  contribution subcategoryName teacher = Some price.
Proof.
  unfold contributing_prices. rewrite in_flat_map.
  intros (teacher & Hin & Hp). exists teacher. split; [assumption|].
  destruct (contribution subcategoryName teacher) as [q|]; [|contradiction].
  destruct Hp as [->|[]]. reflexivity.
Qed.

Lemma roundedAveragePrice_not_negative (acc : totals) :
  not_negative (totalPrice acc) -> not_negative (roundedAveragePrice acc).
Proof.
  intros Htotal. unfold roundedAveragePrice, averagePrice.
  apply div_not_negative; [|reflexivity].
  apply Math_round_not_negative, mul_not_negative; [|reflexivity].
  destruct (Nat.ltb 0 (teachersWithPriceForCategory acc)); [|reflexivity].
  apply div_not_negative; [assumption|apply of_uint63_sign_clear].
Qed.

Lemma roundedAveragePrice_no_contribution (acc : totals) :
  teachersWithPriceForCategory acc = 0 -> roundedAveragePrice acc = 0%float.
Proof.
  intros H. unfold roundedAveragePrice, averagePrice. rewrite H. reflexivity.
Qed.

(** ** Promises *)

Lemma Promise_all_fulfilled {A : Type} (ps : list (Promise A)) :
  Forall (fun p => exists t a, p = Some (t, Fulfilled a)) ps ->
  exists t l, Promise_all ps = Some (t, Fulfilled l) /\
              Forall2 (fun p a => exists t', p = Some (t', Fulfilled a)) ps l.
Proof.
  induction 1 as [|p ps (t & a & ->) _ (t' & l & IH & Hall)]; cbn.
  - exists [], []. split; [reflexivity|constructor].
  - rewrite IH. cbn. exists (t ++ t' ++ []), (a :: l).
    split; [reflexivity|]. constructor; eauto.
Qed.

Lemma Promise_all_inv {A : Type} (ps : list (Promise A)) :
  forall t l,
    Promise_all ps = Some (t, Fulfilled l) ->
    Forall2 (fun p a => exists t', p = Some (t', Fulfilled a)) ps l.
Proof.
  induction ps as [|p ps IH]; cbn; intros t l H.
  - injection H as _ <-. constructor.
  - destruct p as [[tp [a|e]]|]; cbn in H; try discriminate.
    destruct (Promise_all ps) as [[t' [l'|e]]|]; cbn in H; try discriminate.
    injection H as _ <-. constructor; eauto.
Qed.

Lemma Forall2_map_from {A B : Type} (f : nat -> A -> Promise B) (l : list A) :
  forall (i : nat) (rs : list B),
    Forall2 (fun p r => exists t, p = Some (t, Fulfilled r)) (map_from f i l) rs ->
    List.length rs = List.length l /\
    forall n a, nth_error l n = Some a ->
      exists t r, f (i + n) a = Some (t, Fulfilled r) /\ nth_error rs n = Some r.
Proof.
  induction l as [|a l IH]; cbn; intros i rs H.
  - inversion H. split; [reflexivity|]. intros [|n] b; discriminate.
  - inversion H as [|p r ps rs' (t & Hp) Hrest]; subst.
    destruct (IH _ _ Hrest) as (Hlen & Hnth). split; [cbn; congruence|].
    intros [|n] b Hb; cbn in *.
    + injection Hb as <-. rewrite Nat.add_0_r. eauto.
    + rewrite Nat.add_succ_r. apply Hnth. assumption.
Qed.

(** ** One pipeline *)

Lemma fetchCategories_cases (up : Upstream) :
  fetchCategories up =
  Some ([GET_categories],
        match categories up with
        | Rejected e => Rejected e
        | Fulfilled response =>
            if ok response then json response
            else Rejected (Error "Failed to fetch categories")
        end).
Proof.
  unfold fetchCategories, await, fetch, response_json, throw.
  destruct (categories up) as [response|e]; [|reflexivity].
  destruct (ok response); reflexivity.
Qed.

Lemma postAveragePrice_cases (up : Upstream) (pipeline : nat)
    (categoryName : string) (averagePrice : number) :
  postAveragePrice up pipeline categoryName averagePrice =
  Some ([POST_average_price categoryName averagePrice],
        match average_price up pipeline categoryName averagePrice with
        | Rejected e => Rejected e
        | Fulfilled response =>
            if ok response then Fulfilled response
            else Rejected (Error ("Failed to post average price for " ++ categoryName)%string)
        end).
Proof.
  unfold postAveragePrice, await, fetch, resolve, throw.
  destruct (average_price up pipeline categoryName averagePrice) as [response|e];
    [|reflexivity].
  destruct (ok response); reflexivity.
Qed.

Lemma loop_same_search (up up' : Upstream) (pipeline : nat) (categoryId : number) :
  search up' pipeline = search up pipeline ->
  forall fuel acc p,
    fetchAllTeachers_loop fuel up' pipeline categoryId acc p =
    fetchAllTeachers_loop fuel up pipeline categoryId acc p.
Proof.
  intros Hs. induction fuel as [|fuel IH]; intros acc p; [reflexivity|].
  rewrite !fetchAllTeachers_loop_S. unfold page_result_of. rewrite Hs.
  destruct (search up pipeline categoryId p pageSize) as [response|e]; [|reflexivity].
  destruct (negb (ok response)); [reflexivity|].
  destruct (json response) as [[[[|a l]|] total]|e]; try reflexivity.
  cbn. now rewrite IH.
Qed.

Section Pipeline.

Variable Number_toString : number -> string.

Local Abbreviation process := (processSubcategory Number_toString).

Lemma processSubcategory_cases (fuel : nat) (up : Upstream) (pipeline : nat)
    (subcategory : Subcategory.t) :
  process fuel up pipeline subcategory =
  match fetchAllTeachersForCategory fuel up pipeline (Subcategory.code subcategory) with
  | None => None
  | Some (t, Rejected e) => Some (t, Fulfilled (error_result subcategory e))
  | Some (t, Fulfilled teachers) =>
      let acc := forEach_teachers (Subcategory.name subcategory) teachers in
      match postAveragePrice up pipeline (Subcategory.name subcategory)
              (roundedAveragePrice acc) with
      | Some (tp, Fulfilled _) =>
          Some (t ++ tp, Fulfilled (success_result Number_toString subcategory acc))
      | Some (tp, Rejected e) => Some (t ++ tp, Fulfilled (error_result subcategory e))
      | None => None
      end
  end.
Proof.
  unfold processSubcategory.
  destruct (fetchAllTeachersForCategory fuel up pipeline (Subcategory.code subcategory))
    as [[t [teachers|e]]|]; cbn -[postAveragePrice];
    [|now rewrite app_nil_r|reflexivity].
  rewrite postAveragePrice_cases.
  destruct (average_price up pipeline _ _) as [response|e]; cbn;
    [destruct (ok response); cbn|]; now rewrite ?app_nil_r.
Qed.

(** The callback catches whatever is thrown: its promise is never rejected,
    and its value carries the name of the subcategory. *)
Lemma processSubcategory_never_rejects (fuel : nat) (up : Upstream) (pipeline : nat)
    (subcategory : Subcategory.t) t out :
  process fuel up pipeline subcategory = Some (t, out) ->
  exists r, out = Fulfilled r /\
            CalculationResult.categoryName r = Subcategory.name subcategory.
Proof.
  rewrite processSubcategory_cases.
  destruct (fetchAllTeachersForCategory _ _ _ _) as [[t1 [teachers|e]]|];
    [| |discriminate].
  - cbn -[postAveragePrice]. rewrite postAveragePrice_cases.
    destruct (average_price up pipeline _ _) as [response|e];
      [destruct (ok response)|]; intros [= _ <-]; eauto.
  - intros [= _ <-]. eauto.
Qed.


(** A pipeline whose outcome is an error has the average 0. *)
Lemma processSubcategory_error_average (fuel : nat) (up : Upstream) (pipeline : nat)
    (subcategory : Subcategory.t) t r :
  process fuel up pipeline subcategory = Some (t, Fulfilled r) ->
  CalculationResult.status r = Status.error ->
  CalculationResult.averagePrice r = 0%float.
Proof.
  rewrite processSubcategory_cases.
  destruct (fetchAllTeachersForCategory _ _ _ _) as [[t1 [teachers|e]]|];
    [| |discriminate].
  - cbn -[postAveragePrice]. rewrite postAveragePrice_cases.
    destruct (average_price up pipeline _ _) as [response|e];
      [destruct (ok response)|]; intros [= _ <-]; cbn; congruence.
  - intros [= _ <-]. reflexivity.
Qed.

Lemma processSubcategory_same (up up' : Upstream) (j : nat) :
  same_for_others j up up' ->
  forall fuel i subcategory, i <> j ->
    process fuel up' i subcategory = process fuel up i subcategory.
Proof.
  intros (_ & Hsame) fuel i subcategory Hi. destruct (Hsame i Hi) as (Hs & Hp).
  rewrite !processSubcategory_cases. unfold fetchAllTeachersForCategory.
  rewrite (loop_same_search up up' i _ Hs).
  destruct (fetchAllTeachers_loop fuel up i _ [] 0) as [[t [teachers|e]]|];
    try reflexivity.
  cbn -[postAveragePrice]. now rewrite !postAveragePrice_cases, Hp.
Qed.




End Pipeline.

(** ** The click handler *)

Section Run.

Variable Number_toString : number -> string.

Local Abbreviation process := (processSubcategory Number_toString).
Local Abbreviation handle := (handleCalculatePrices Number_toString).

(** With a catalog that has subcategories, the handler is the [Promise.all]
    of the pipelines. *)
Lemma handle_with_catalog (fuel : nat) (up : Upstream) (st : State.t)
    (cats : list Category.t) :
  fetchCategories up = Some ([GET_categories], Fulfilled (Some cats)) ->
  allSubcategories cats <> [] ->
  handle fuel up st =
  match Promise_all (map_from (process fuel up) 0 (allSubcategories cats)) with
  | None => None
  | Some (t, Fulfilled rs) =>
      Some (GET_categories :: t,
            {| State.isLoading := false; State.results := rs; State.error := None |})
  | Some (t, Rejected e) =>
      Some (GET_categories :: t,
            {| State.isLoading := false; State.results := [];
               State.error := Some (message_or e "An unexpected error occurred.") |})
  end.
Proof.
  intros Hfetch Hsubs. unfold handleCalculatePrices, try_block. rewrite Hfetch.
  cbn [await]. destruct cats as [|c cats]; [now destruct Hsubs|].
  destruct (allSubcategories (c :: cats)) as [|s subs] eqn:E; [now destruct Hsubs|].
  cbn [List.length Nat.eqb].
  destruct (Promise_all (map_from (process fuel up) 0 (s :: subs)))
    as [[t [rs|e]]|]; cbn; rewrite ?app_nil_r; reflexivity.
Qed.

(** The results of a finished run are the outcomes of the pipelines, index
    by index. *)
Lemma handle_results (fuel : nat) (up : Upstream) (st st' : State.t)
    (cats : list Category.t) t :
  fetchCategories up = Some ([GET_categories], Fulfilled (Some cats)) ->
  allSubcategories cats <> [] ->
  handle fuel up st = Some (t, st') ->
  State.isLoading st' = false /\ State.error st' = None /\
  List.length (State.results st') = List.length (allSubcategories cats) /\
  forall i s, nth_error (allSubcategories cats) i = Some s ->
    exists ti r, process fuel up i s = Some (ti, Fulfilled r) /\
                 nth_error (State.results st') i = Some r.
Proof.
  intros Hfetch Hsubs. rewrite (handle_with_catalog fuel up st cats Hfetch Hsubs).
  destruct (Promise_all _) as [[t' [rs|e]]|] eqn:E; [| |discriminate].
  - intros [= _ <-]. cbn. apply Promise_all_inv, Forall2_map_from in E.
    destruct E as (Hlen & Hnth). repeat split; [exact Hlen|exact Hnth].
  - exfalso. clear Hsubs. revert E. generalize 0 t'.
    induction (allSubcategories cats) as [|s subs IH]; intros i t1; cbn; [discriminate|].
    destruct (process fuel up i s) as [[ti [r|e']]|] eqn:Ep; cbn; try discriminate.
    + destruct (Promise_all (map_from (process fuel up) (S i) subs))
        as [[t2 [rs|e2]]|] eqn:E2; cbn; try discriminate.
      intros [= _ ->]. exact (IH (S i) t2 E2).
    + apply processSubcategory_never_rejects in Ep. destruct Ep as (r & [=] & _).
Qed.

Lemma nth_error_names (rs : list CalculationResult.t) (subs : list Subcategory.t) :
  List.length rs = List.length subs ->
  (forall i s, nth_error subs i = Some s ->
     exists r, nth_error rs i = Some r /\
               CalculationResult.categoryName r = Subcategory.name s) ->
  map CalculationResult.categoryName rs = map Subcategory.name subs.
Proof.
  revert subs. induction rs as [|r rs IH]; intros [|s subs] Hlen H; try discriminate.
  - reflexivity.
  - cbn. f_equal.
    + destruct (H 0 s eq_refl) as (r' & [= <-] & Hname). exact Hname.
    + apply IH; [now injection Hlen|]. intros i s' Hi. exact (H (S i) s' Hi).
Qed.


Lemma catalog_fetch_fails_spec (up : Upstream) (e : thrown) :
  catalog_fetch_fails up e <->
  fetchCategories up = Some ([GET_categories], Rejected e).
Proof.
  rewrite fetchCategories_cases. unfold catalog_fetch_fails. split.
  - intros [->|[(response & -> & Hok & ->)|(response & -> & Hok & Hjson)]];
      rewrite ?Hok, ?Hjson; reflexivity.
  - destruct (categories up) as [response|e']; [|intros [= ->]; now left].
    destruct (ok response) eqn:Hok; intros [= H]; right; [right|left]; eauto.
Qed.

(** C6. When the catalog fetch fails, the run ends after that one request:
    no request of a pipeline is issued, the results are empty (whatever they
    were before the click), the error is the one message of the failure, and
    [isLoading] is false again. *)
Theorem failed_catalog_fetch_aborts_the_run :
  forall (fuel : nat) (up : Upstream) (st : State.t) (e : thrown),
    catalog_fetch_fails up e ->
    handle fuel up st =
    Some ([GET_categories],
          {| State.isLoading := false;
             State.results := [];
             State.error := Some (message_or e "An unexpected error occurred.") |}).
Proof.
  intros fuel up st e Hfail. apply catalog_fetch_fails_spec in Hfail.
  unfold handleCalculatePrices, try_block. rewrite Hfail. reflexivity.
Qed.

End Run.


Lemma failed_catalog_fetch_aborts_the_run_witness :
  handleCalculatePrices no_text 0
    (pages_of_one 1 (teacher_with "Physics" (JsNumber 30%float)))
    {| State.isLoading := false;
       State.results := [error_result physics NonError];
       State.error := None |} =
  Some ([GET_categories],
        {| State.isLoading := false;
           State.results := [];
           State.error := Some "Failed to fetch categories" |}).
Proof.
  apply (failed_catalog_fetch_aborts_the_run no_text 0
           (pages_of_one 1 (teacher_with "Physics" (JsNumber 30%float)))
           _ (Error "Failed to fetch categories")).
  right. left. exists {| ok := false; json := Rejected NonError |}.
  repeat split.
Defined.

(** ** Outcomes of the pipelines *)

Lemma count_status_all_success (rs : list CalculationResult.t) :
  (forall i r, nth_error rs i = Some r -> CalculationResult.status r = Status.success) ->
  count_status Status.error rs = 0 /\ count_status Status.success rs = List.length rs.
Proof.
  unfold count_status. induction rs as [|r rs IH]; intros H; [split; reflexivity|].
  destruct IH as (IHe & IHs); [intros i r' Hi; exact (H (S i) r' Hi)|].
  cbn. rewrite (H 0 r eq_refl). cbn. now rewrite IHe, IHs.
Qed.

Lemma count_status_one_error (rs : list CalculationResult.t) :
  forall (j : nat) (rj : CalculationResult.t),
    nth_error rs j = Some rj ->
    CalculationResult.status rj = Status.error ->
    (forall i r, i <> j -> nth_error rs i = Some r ->
       CalculationResult.status r = Status.success) ->
    count_status Status.error rs = 1 /\
    count_status Status.success rs = List.length rs - 1.
Proof.
  induction rs as [|r rs IH]; intros [|j] rj Hj Herr Hothers; try discriminate.
  - injection Hj as ->.
    destruct (count_status_all_success rs) as (He & Hs).
    { intros i r Hi. apply (Hothers (S i) r); [discriminate|exact Hi]. }
    unfold count_status in *. cbn. rewrite Herr. cbn. rewrite He, Hs. split; lia.
  - cbn in Hj. destruct (IH j rj Hj Herr) as (He & Hs).
    { intros i r' Hi Hr. apply (Hothers (S i) r'); [congruence|exact Hr]. }
    assert (Hlen : j < List.length rs) by (apply nth_error_Some; congruence).
    unfold count_status in *. cbn. rewrite (Hothers 0 r); [|discriminate|reflexivity].
    cbn. rewrite He, Hs. split; lia.
Qed.

Lemma Forall_map_from {A B : Type} (P : B -> Prop) (f : nat -> A -> B) (l : list A) :
  forall i0 : nat,
    (forall n a, nth_error l n = Some a -> P (f (i0 + n) a)) ->
    Forall P (map_from f i0 l).
Proof.
  induction l as [|a l IH]; intros i0 H; cbn; constructor.
  - specialize (H 0 a eq_refl). now rewrite Nat.add_0_r in H.
  - apply IH. intros n b Hn. specialize (H (S n) b Hn).
    now rewrite Nat.add_succ_r in H.
Qed.

Section Outcomes.

Variable Number_toString : number -> string.

Local Abbreviation process := (processSubcategory Number_toString).
Local Abbreviation handle := (handleCalculatePrices Number_toString).

(** The pipeline whose pagination returns and whose publish call is
    answered ok. *)
Lemma processSubcategory_success (fuel : nat) (up : Upstream) (pipeline : nat)
    (s : Subcategory.t) t teachers tp response :
  fetchAllTeachersForCategory fuel up pipeline (Subcategory.code s) =
    Some (t, Fulfilled teachers) ->
  postAveragePrice up pipeline (Subcategory.name s)
    (roundedAveragePrice (forEach_teachers (Subcategory.name s) teachers)) =
    Some (tp, Fulfilled response) ->
  process fuel up pipeline s =
  Some (t ++ tp,
        Fulfilled (success_result Number_toString s
                     (forEach_teachers (Subcategory.name s) teachers))).
Proof.
  intros Hfetch Hpost. rewrite processSubcategory_cases, Hfetch. cbn zeta.
  now rewrite Hpost.
Qed.

(** The pipeline whose pagination returns and whose publish call throws. *)
Lemma processSubcategory_failed_publish (fuel : nat) (up : Upstream) (pipeline : nat)
    (s : Subcategory.t) t teachers tp e :
  fetchAllTeachersForCategory fuel up pipeline (Subcategory.code s) =
    Some (t, Fulfilled teachers) ->
  postAveragePrice up pipeline (Subcategory.name s)
    (roundedAveragePrice (forEach_teachers (Subcategory.name s) teachers)) =
    Some (tp, Rejected e) ->
  process fuel up pipeline s = Some (t ++ tp, Fulfilled (error_result s e)).
Proof.
  intros Hfetch Hpost. rewrite processSubcategory_cases, Hfetch. cbn zeta.
  now rewrite Hpost.
Qed.

(** A successful outcome reports the rounded average of the listings the
    pagination returned. *)
Lemma processSubcategory_success_inv (fuel : nat) (up : Upstream) (pipeline : nat)
    (s : Subcategory.t) t r :
  process fuel up pipeline s = Some (t, Fulfilled r) ->
  CalculationResult.status r = Status.success ->
  exists t1 teachers,
    fetchAllTeachersForCategory fuel up pipeline (Subcategory.code s) =
      Some (t1, Fulfilled teachers) /\
    r = success_result Number_toString s
          (forEach_teachers (Subcategory.name s) teachers) /\
    t = t1 ++ [POST_average_price (Subcategory.name s)
                 (roundedAveragePrice (forEach_teachers (Subcategory.name s) teachers))].
Proof.
  rewrite processSubcategory_cases.
  destruct (fetchAllTeachersForCategory _ _ _ _) as [[t1 [teachers|e]]|];
    [| |discriminate].
  - cbn -[postAveragePrice]. rewrite postAveragePrice_cases.
    destruct (average_price up pipeline _ _) as [response|e];
      [destruct (ok response)|]; intros [= <- <-]; try discriminate; eauto.
  - intros [= _ <-]; discriminate.
Qed.

(** C7. In a run over N subcategories where the publish call of the
    subcategory at index [j] fails and every other pipeline succeeds, the
    Report has N outcomes, N-1 of them successes and one an error; the error
    is the outcome at index [j] and its message is the message of what the
    publish call threw: the message [m] itself when an [Error] with message
    [m] was thrown, the fixed text when something else was.  Read off the
    answer of the service to the publish request of pipeline [j]: an answer
    that is not ok gives the message "Failed to post average price for"
    followed by the subcategory's name, a request rejected with an [Error]
    gives that error's message.  The outcomes of the other subcategories are
    what they are whatever the service answers to pipeline [j]. *)
Theorem one_failed_publish_fails_one_outcome :
  forall (fuel : nat) (up : Upstream) (st : State.t) (cats : list Category.t)
         (j : nat) (sj : Subcategory.t) (e : thrown),
    fetchCategories up = Some ([GET_categories], Fulfilled (Some cats)) ->
    nth_error (allSubcategories cats) j = Some sj ->
    reaches_publish fuel up j sj (Rejected e) ->
    (forall i s, i <> j -> nth_error (allSubcategories cats) i = Some s ->
       exists response, reaches_publish fuel up i s (Fulfilled response)) ->
    exists t st',
      handle fuel up st = Some (t, st') /\
      List.length (State.results st') = List.length (allSubcategories cats) /\
      count_status Status.success (State.results st') =
        List.length (allSubcategories cats) - 1 /\
      count_status Status.error (State.results st') = 1 /\
      nth_error (State.results st') j = Some (error_result sj e) /\
      CalculationResult.status (error_result sj e) = Status.error /\
      CalculationResult.message (error_result sj e) =
        Some (message_or e "An unknown error occurred.") /\
      (exists rj,
         nth_error (State.results st') j = Some rj /\
         CalculationResult.categoryName rj = Subcategory.name sj /\
         CalculationResult.status rj = Status.error /\
         (forall m, e = Error m -> CalculationResult.message rj = Some m) /\
         (e = NonError ->
          CalculationResult.message rj = Some "An unknown error occurred."%string) /\
         (forall t1 teachers,
            fetchAllTeachersForCategory fuel up j (Subcategory.code sj) =
              Some (t1, Fulfilled teachers) ->
            match average_price up j (Subcategory.name sj)
                    (roundedAveragePrice
                       (forEach_teachers (Subcategory.name sj) teachers)) with
            | Fulfilled response =>
                ok response = false /\
                CalculationResult.message rj =
                  Some ("Failed to post average price for " ++ Subcategory.name sj)%string
            | Rejected (Error m) => CalculationResult.message rj = Some m
            | Rejected NonError =>
                CalculationResult.message rj = Some "An unknown error occurred."%string
            end)) /\
      (forall i s, i <> j -> nth_error (allSubcategories cats) i = Some s ->
         exists r, nth_error (State.results st') i = Some r /\
                   CalculationResult.status r = Status.success /\
                   CalculationResult.categoryName r = Subcategory.name s) /\
      (forall up' t' st'',
         same_for_others j up up' ->
         handle fuel up' st = Some (t', st'') ->
         forall i, i <> j ->
           nth_error (State.results st'') i = nth_error (State.results st') i).
Proof.
  intros fuel up st cats j sj e Hfetch Hj (tj & teachers_j & tpj & Hfj & Hpj) Hothers.
  assert (Hsubs : allSubcategories cats <> []) by (intros E; rewrite E in Hj; now destruct j).
  assert (Hpj' := processSubcategory_failed_publish fuel up j sj _ _ _ _ Hfj Hpj).
  assert (Hpi : forall i s, i <> j -> nth_error (allSubcategories cats) i = Some s ->
            exists t teachers,
              process fuel up i s =
              Some (t, Fulfilled (success_result Number_toString s
                                    (forEach_teachers (Subcategory.name s) teachers)))).
  { intros i s Hi Hs. destruct (Hothers i s Hi Hs) as (response & t & teachers & tp & Hf & Hp).
    exists (t ++ tp), teachers. exact (processSubcategory_success fuel up i s _ _ _ _ Hf Hp). }
  assert (Hall : Forall (fun p => exists t r, p = Some (t, Fulfilled r))
                   (map_from (process fuel up) 0 (allSubcategories cats))).
  { apply Forall_map_from. intros n s Hn. cbn [Nat.add].
    destruct (Nat.eq_dec n j) as [->|Hne].
    - assert (s = sj) by congruence. subst. eauto.
    - destruct (Hpi n s Hne Hn) as (t & teachers & ->). eauto. }
  destruct (Promise_all_fulfilled _ Hall) as (t & rs & Hrun & _).
  assert (Hrun' : handle fuel up st =
                  Some (GET_categories :: t,
                        {| State.isLoading := false; State.results := rs;
                           State.error := None |})).
  { now rewrite (handle_with_catalog _ fuel up st cats Hfetch Hsubs), Hrun. }
  destruct (handle_results _ fuel up st _ cats _ Hfetch Hsubs Hrun')
    as (_ & _ & Hlen & Hnth). cbn [State.results] in Hlen, Hnth.
  assert (Hrj : nth_error rs j = Some (error_result sj e)).
  { destruct (Hnth j sj Hj) as (ti & r & Hp & Hr). congruence. }
  assert (Hri : forall i s, i <> j -> nth_error (allSubcategories cats) i = Some s ->
            exists r, nth_error rs i = Some r /\
                      CalculationResult.status r = Status.success /\
                      CalculationResult.categoryName r = Subcategory.name s).
  { intros i s Hi Hs. destruct (Hnth i s Hs) as (ti & r & Hp & Hr).
    destruct (Hpi i s Hi Hs) as (t0 & teachers & Hp'). rewrite Hp' in Hp.
    injection Hp as _ <-. eauto. }
  destruct (count_status_one_error rs j _ Hrj eq_refl) as (Hce & Hcs).
  { intros i r Hi Hr. assert (Hlt : i < List.length (allSubcategories cats)).
    { rewrite <- Hlen. apply nth_error_Some. congruence. }
    destruct (nth_error (allSubcategories cats) i) as [s|] eqn:Es;
      [|apply nth_error_None in Es; lia].
    destruct (Hri i s Hi Es) as (r' & Hr' & Hst & _). congruence. }
  eexists (GET_categories :: t), _. split; [exact Hrun'|]. cbn [State.results].
  do 6 (split; [first [assumption | reflexivity | congruence]|]).
  split.
  { exists (error_result sj e). split; [exact Hrj|].
    do 2 (split; [reflexivity|]).
    split; [intros m ->; reflexivity|].
    split; [intros ->; reflexivity|].
    intros t1 teachers Hf1. rewrite Hfj in Hf1. injection Hf1 as _ <-.
    rewrite postAveragePrice_cases in Hpj. injection Hpj as _ Hout.
    destruct (average_price up j (Subcategory.name sj)
                (roundedAveragePrice
                   (forEach_teachers (Subcategory.name sj) teachers_j)))
      as [response|e'].
    - destruct (ok response); [discriminate|].
      injection Hout as <-. split; reflexivity.
    - injection Hout as <-. destruct e'; reflexivity. }
  split; [exact Hri|].
  intros up' t' st'' Hsame Hrun'' i Hi.
  assert (Hfetch' : fetchCategories up' = Some ([GET_categories], Fulfilled (Some cats))).
  { rewrite fetchCategories_cases in *. now rewrite (proj1 Hsame). }
  destruct (handle_results _ fuel up' st _ cats _ Hfetch' Hsubs Hrun'')
    as (_ & _ & Hlen' & Hnth').
  destruct (nth_error (allSubcategories cats) i) as [s|] eqn:Es.
  - destruct (Hnth' i s Es) as (ti' & r' & Hp' & ->).
    destruct (Hnth i s Es) as (ti & r & Hp & ->).
    rewrite (processSubcategory_same _ up up' j Hsame fuel i s Hi) in Hp'. congruence.
  - apply nth_error_None in Es.
    transitivity (@None CalculationResult.t); [|symmetry]; apply nth_error_None; lia.
Qed.

(** C10. An outcome with the status error has the average 0: the object of
    the catch clause is built with the constant 0.  This holds when the
    publish call threw after an average was computed and sent, whatever
    that average was. *)
Theorem failed_outcome_has_average_zero :
  forall (fuel : nat) (up : Upstream) (pipeline : nat) (s : Subcategory.t),
    (forall t r,
        process fuel up pipeline s = Some (t, Fulfilled r) ->
        CalculationResult.status r = Status.error ->
        CalculationResult.averagePrice r = 0%float) /\
    (forall t teachers tp e,
        fetchAllTeachersForCategory fuel up pipeline (Subcategory.code s) =
          Some (t, Fulfilled teachers) ->
        postAveragePrice up pipeline (Subcategory.name s)
          (roundedAveragePrice (forEach_teachers (Subcategory.name s) teachers)) =
          Some (tp, Rejected e) ->
        exists r,
          process fuel up pipeline s = Some (t ++ tp, Fulfilled r) /\
          tp = [POST_average_price (Subcategory.name s)
                  (roundedAveragePrice (forEach_teachers (Subcategory.name s) teachers))] /\
          CalculationResult.status r = Status.error /\
          CalculationResult.averagePrice r = 0%float).
Proof.
  intros fuel up pipeline s. split.
  - intros t r. apply processSubcategory_error_average.
  - intros t teachers tp e Hfetch Hpost. exists (error_result s e).
    split; [now apply (processSubcategory_failed_publish fuel up pipeline s t teachers)|].
    rewrite postAveragePrice_cases in Hpost. injection Hpost as <- _.
    repeat split.
Qed.

(** C8. When the scan of the listings of a subcategory counts no price, the
    computed average is 0; and when the publish call of this 0 succeeds, the
    outcome of the subcategory is a success with the average 0. *)
Theorem no_contribution_is_a_success_with_zero :
  forall (fuel : nat) (up : Upstream) (pipeline : nat) (s : Subcategory.t)
         (t : list request) (teachers : list Teacher.t),
    fetchAllTeachersForCategory fuel up pipeline (Subcategory.code s) =
      Some (t, Fulfilled teachers) ->
    teachersWithPriceForCategory (forEach_teachers (Subcategory.name s) teachers) = 0 ->
    roundedAveragePrice (forEach_teachers (Subcategory.name s) teachers) = 0%float /\
    forall tp response,
      postAveragePrice up pipeline (Subcategory.name s) 0%float =
        Some (tp, Fulfilled response) ->
      exists r,
        process fuel up pipeline s = Some (t ++ tp, Fulfilled r) /\
        CalculationResult.categoryName r = Subcategory.name s /\
        CalculationResult.averagePrice r = 0%float /\
        CalculationResult.status r = Status.success.
Proof.
  intros fuel up pipeline s t teachers Hfetch Hcount.
  assert (Hzero := roundedAveragePrice_no_contribution _ Hcount).
  split; [exact Hzero|].
  intros tp response Hpost. rewrite <- Hzero in Hpost.
  rewrite (processSubcategory_success fuel up pipeline s _ _ _ _ Hfetch Hpost).
  eexists. split; [reflexivity|]. cbn. auto.
Qed.

End Outcomes.

Lemma one_failed_publish_fails_one_outcome_witness :
  exists t st',
    handleCalculatePrices no_text 3 physics_service initial_state = Some (t, st') /\
    List.length (State.results st') = 2 /\
    count_status Status.success (State.results st') = 1 /\
    count_status Status.error (State.results st') = 1 /\
    nth_error (State.results st') 1 =
      Some (error_result physics (Error "Failed to post average price for Physics")) /\
    exists rj,
      nth_error (State.results st') 1 = Some rj /\
      CalculationResult.categoryName rj = "Physics"%string /\
      CalculationResult.status rj = Status.error /\
      CalculationResult.message rj =
        Some "Failed to post average price for Physics"%string.
Proof.
  destruct (one_failed_publish_fails_one_outcome no_text 3 physics_service
              initial_state [sciences] 1 physics
              (Error "Failed to post average price for Physics"))
    as (t & st' & Hrun & Hlen & Hs & He & Hj & _ & _ &
        (rj & Hrj & Hname & Hstatus & _ & _ & Hanswer) & _).
  - reflexivity.
  - reflexivity.
  - do 3 eexists. split; reflexivity.
  - intros [|[|i]] s Hi Hs; [|now destruct Hi|now destruct i].
    injection Hs as <-. exists {| ok := true; json := Fulfilled tt |}.
    do 3 eexists. split; reflexivity.
  - exists t, st'. do 5 (split; [assumption|]).
    exists rj. do 3 (split; [assumption|]).
    exact (proj2 (Hanswer _ _ eq_refl)).
Defined.

Lemma failed_outcome_has_average_zero_witness :
  exists r,
    processSubcategory no_text 3 physics_service 1 physics =
    Some ([POST_search 8%float 0 10; POST_search 8%float 1 10; POST_search 8%float 2 10]
          ++ [POST_average_price "Physics" 30%float],
          Fulfilled r) /\
    [POST_average_price "Physics" 30%float] =
    [POST_average_price (Subcategory.name physics)
       (roundedAveragePrice
          (forEach_teachers (Subcategory.name physics)
             [teacher_with "Physics" (JsNumber 30%float);
              teacher_with "Physics" (JsNumber 30%float)]))] /\
    CalculationResult.status r = Status.error /\
    CalculationResult.averagePrice r = 0%float.
Proof.
  apply (proj2 (failed_outcome_has_average_zero no_text 3 physics_service 1 physics)
           _ _ _ (Error "Failed to post average price for Physics")).
  - reflexivity.
  - reflexivity.
Defined.

Lemma no_contribution_is_a_success_with_zero_witness :
  roundedAveragePrice
    (forEach_teachers "Mathematics"
       [teacher_with "Physics" (JsNumber 30%float);
        teacher_with "Physics" (JsNumber 30%float)]) = 0%float /\
  forall tp response,
    postAveragePrice physics_service 0 "Mathematics" 0%float =
      Some (tp, Fulfilled response) ->
    exists r,
      processSubcategory no_text 3 physics_service 0 mathematics =
      Some ([POST_search 7%float 0 10; POST_search 7%float 1 10; POST_search 7%float 2 10]
            ++ tp, Fulfilled r) /\
      CalculationResult.categoryName r = "Mathematics" /\
      CalculationResult.averagePrice r = 0%float /\
      CalculationResult.status r = Status.success.
Proof.
  apply (no_contribution_is_a_success_with_zero no_text 3 physics_service 0 mathematics).
  - reflexivity.
  - reflexivity.
Defined.

(** ** The average *)

(** C9. The scan leaves in [totalPrice] the sum of the counted prices and in
    [teachersWithPriceForCategory] their number; when a price was counted,
    the rounded average is that sum divided by that number, multiplied by
    100, rounded to the nearest integer with [Math.round] and divided by
    100 (and it is 0 when no price was counted, where nothing is divided).
    A successful outcome reports this value, and it is the value that was
    sent.  For the prices 10.00, 10.00 and 10.01 the value is 10. *)
Theorem reported_average_is_mean_rounded_to_cents :
  (forall (subcategoryName : string) (teachers : list Teacher.t),
      totalPrice (forEach_teachers subcategoryName teachers) =
        sum_prices (contributing_prices subcategoryName teachers) /\
      teachersWithPriceForCategory (forEach_teachers subcategoryName teachers) =
        List.length (contributing_prices subcategoryName teachers) /\
      (0 < List.length (contributing_prices subcategoryName teachers) ->
       roundedAveragePrice (forEach_teachers subcategoryName teachers) =
       (Math_round
          (sum_prices (contributing_prices subcategoryName teachers)
           / number_of_nat (List.length (contributing_prices subcategoryName teachers))
           * 100) / 100)%float) /\
      (List.length (contributing_prices subcategoryName teachers) = 0 ->
       roundedAveragePrice (forEach_teachers subcategoryName teachers) = 0%float)) /\
  (forall (Number_toString : number -> string) (fuel : nat) (up : Upstream)
          (pipeline : nat) (s : Subcategory.t) t r,
      processSubcategory Number_toString fuel up pipeline s = Some (t, Fulfilled r) ->
      CalculationResult.status r = Status.success ->
      exists t1 teachers,
        fetchAllTeachersForCategory fuel up pipeline (Subcategory.code s) =
          Some (t1, Fulfilled teachers) /\
        CalculationResult.averagePrice r =
          roundedAveragePrice (forEach_teachers (Subcategory.name s) teachers) /\
        t = t1 ++ [POST_average_price (Subcategory.name s)
                     (CalculationResult.averagePrice r)]) /\
  contributing_prices "Mathematics"
    [teacher_with "Mathematics" (JsNumber 10%float);
     teacher_with "Mathematics" (JsNumber 10%float);
     teacher_with "Mathematics" (JsNumber ten_and_one_cent)] =
    [10%float; 10%float; ten_and_one_cent] /\
  roundedAveragePrice
    (forEach_teachers "Mathematics"
       [teacher_with "Mathematics" (JsNumber 10%float);
        teacher_with "Mathematics" (JsNumber 10%float);
        teacher_with "Mathematics" (JsNumber ten_and_one_cent)]) = 10%float.
Proof.
  split; [|split; [|split; reflexivity]].
  - intros subcategoryName teachers. rewrite forEach_teachers_totals.
    repeat split.
    + intros Hpos. unfold roundedAveragePrice, averagePrice.
      cbn [teachersWithPriceForCategory totalPrice].
      destruct (Nat.ltb_spec 0 (List.length (contributing_prices subcategoryName teachers)));
        [reflexivity|lia].
    + intros Hzero. now apply roundedAveragePrice_no_contribution.
  - intros Number_toString fuel up pipeline s t r Hrun Hstatus.
    destruct (processSubcategory_success_inv _ _ _ _ _ _ _ Hrun Hstatus)
      as (t1 & teachers & Hfetch & -> & ->).
    exists t1, teachers. repeat split. exact Hfetch.
Qed.

Lemma reported_average_is_mean_rounded_to_cents_witness :
  roundedAveragePrice
    (forEach_teachers "Physics"
       [teacher_with "Physics" (JsNumber 30%float);
        teacher_with "Mathematics" (JsNumber 10%float);
        teacher_with "Physics" (JsNumber 45%float)]) =
  (Math_round
     (sum_prices [30%float; 45%float] / number_of_nat 2 * 100) / 100)%float.
Proof.
  apply (proj1 (proj2 (proj2 (proj1 reported_average_is_mean_rounded_to_cents "Physics"
           [teacher_with "Physics" (JsNumber 30%float);
            teacher_with "Mathematics" (JsNumber 10%float);
            teacher_with "Physics" (JsNumber 45%float)])))).
  cbn. lia.
Defined.

(** C2, as the specification states it, fails: a negative price is counted,
    and the average is then negative. *)
Lemma negative_price_is_counted :
  teachersWithPriceForCategory
    (forEach_teachers "Mathematics"
       [teacher_with "Mathematics" (JsNumber (-20)%float)]) = 1 /\
  roundedAveragePrice
    (forEach_teachers "Mathematics"
       [teacher_with "Mathematics" (JsNumber (-20)%float)]) = (-20)%float /\
  ~ not_negative
      (roundedAveragePrice
         (forEach_teachers "Mathematics"
            [teacher_with "Mathematics" (JsNumber (-20)%float)])).
Proof.
  split; [reflexivity|]. split; [reflexivity|].
  unfold not_negative. vm_compute. discriminate.
Qed.

(** C2, amended. A teacher is counted exactly when the first category entry
    whose name is the subcategory name (an exact, case-sensitive match) has
    a price of type number, whatever its sign: its price is then added to
    the sum and the count grows by one, and otherwise both are unchanged.
    When every counted price is not negative, the average is not negative. *)
Theorem aggregator_counts_first_match_of_type_number :
  forall subcategoryName : string,
    (forall (acc : totals) (teacher : Teacher.t) (cat : TeacherCategoryInfo.t)
            (price : number),
        first_match subcategoryName teacher cat ->
        TeacherCategoryInfo.pricePerHour cat = JsNumber price ->
        forEach_body subcategoryName acc teacher =
        {| totalPrice := (totalPrice acc + price)%float;
           teachersWithPriceForCategory := S (teachersWithPriceForCategory acc) |}) /\
    (forall (acc : totals) (teacher : Teacher.t),
        (forall cat, first_match subcategoryName teacher cat ->
                     typeof (TeacherCategoryInfo.pricePerHour cat) <> "number") ->
        forEach_body subcategoryName acc teacher = acc) /\
    (forall teachers : list Teacher.t,
        (forall teacher cat price,
            In teacher teachers ->
            first_match subcategoryName teacher cat ->
            TeacherCategoryInfo.pricePerHour cat = JsNumber price ->
            not_negative price) ->
        not_negative (roundedAveragePrice (forEach_teachers subcategoryName teachers))).
Proof.
  intros subcategoryName. split; [|split].
  - intros acc teacher cat price Hfirst Hprice.
    rewrite forEach_body_contribution.
    replace (contribution subcategoryName teacher) with (Some price); [reflexivity|].
    symmetry. apply contribution_first_match. eauto.
  - intros acc teacher Hnone. rewrite forEach_body_contribution.
    destruct (contribution subcategoryName teacher) as [price|] eqn:E; [|reflexivity].
    apply contribution_first_match in E. destruct E as (cat & Hfirst & Hprice).
    destruct (Hnone cat Hfirst). now rewrite Hprice.
  - intros teachers Hall. apply roundedAveragePrice_not_negative.
    rewrite forEach_teachers_totals. cbn [totalPrice].
    apply sum_not_negative; [reflexivity|].
    apply Forall_forall. intros price Hin.
    destruct (In_contributing_prices _ _ _ Hin) as (teacher & Hteacher & Hc).
    apply contribution_first_match in Hc. destruct Hc as (cat & Hfirst & Hprice).
    exact (Hall teacher cat price Hteacher Hfirst Hprice).
Qed.

Lemma aggregator_counts_first_match_of_type_number_witness :
  not_negative
    (roundedAveragePrice
       (forEach_teachers "Mathematics"
          [teacher_with "Mathematics" (JsNumber 20%float);
           teacher_with "Physics" (JsNumber (-5)%float)])).
Proof.
  apply (proj2 (proj2 (aggregator_counts_first_match_of_type_number "Mathematics"))).
  intros teacher cat price Hin Hfirst Hprice.
  apply relevantCategory_first_match in Hfirst.
  destruct Hin as [<-|[<-|[]]]; cbn in Hfirst; [|discriminate].
  injection Hfirst as <-. cbn in Hprice. injection Hprice as <-. reflexivity.
Defined.

(** * Further properties of the page *)

(** ** Requests of the pagination *)

Lemma page_requests_S (categoryId : number) (p n : nat) :
  page_requests categoryId p (S n) =
  POST_search categoryId p pageSize :: page_requests categoryId (S p) n.
Proof. reflexivity. Qed.

(** The requests of the loop are the consecutive pages from its page on, and
    every page but the last added a listing. *)
Lemma loop_requests (up : Upstream) (pipeline : nat) (categoryId : number)
    (fuel : nat) :
  forall (p : nat) (acc : list Teacher.t) t r,
    fetchAllTeachers_loop fuel up pipeline categoryId acc p = Some (t, r) ->
    exists n,
      t = page_requests categoryId p (S n) /\
      forall l, r = Fulfilled l -> List.length acc + n <= List.length l.
Proof.
  induction fuel as [|fuel IH]; intros p acc t r H; [discriminate|].
  rewrite fetchAllTeachers_loop_S in H.
  destruct (page_result_of up pipeline categoryId p) as [[|a l]| |e].
  - injection H as <- <-. exists 0. split; [reflexivity|].
    intros l [= <-]. lia.
  - destruct (fetchAllTeachers_loop fuel up pipeline categoryId (acc ++ a :: l) (S p))
      as [[t' r']|] eqn:E; [|discriminate].
    injection H as <- <-. destruct (IH _ _ _ _ E) as (n & -> & Hlen).
    exists (S n). split; [reflexivity|].
    intros l' Hl'. specialize (Hlen l' Hl'). rewrite length_app in Hlen. cbn in Hlen. lia.
  - injection H as <- <-. exists 0. split; [reflexivity|].
    intros l [= <-]. lia.
  - injection H as <- <-. exists 0. split; [reflexivity|]. discriminate.
Qed.

(** X1. Whatever the service answers, a pagination that ends has requested
    the pages 0, 1, ..., n of the category, in this order, each with the
    page size 10 and nothing else; and when it returns a list, the list has
    at least [n] listings: the pager never makes more requests than the
    number of listings it returns plus one. *)
Theorem pager_requests_consecutive_pages :
  forall (fuel : nat) (up : Upstream) (pipeline : nat) (categoryId : number) t r,
    fetchAllTeachersForCategory fuel up pipeline categoryId = Some (t, r) ->
    exists n,
      t = map (fun page => POST_search categoryId page 10) (seq 0 (S n)) /\
      S n <= fuel /\
      forall listings, r = Fulfilled listings -> n <= List.length listings.
Proof.
  intros fuel up pipeline categoryId t r H.
  destruct (loop_requests _ _ _ _ _ _ _ _ H) as (n & -> & Hlen).
  exists n. split; [reflexivity|]. split.
  - apply loop_requests_bound in H. unfold page_requests in H.
    rewrite length_map, length_seq in H. lia.
  - intros listings Hl. exact (Hlen listings Hl).
Qed.

Lemma pager_requests_consecutive_pages_witness :
  exists n,
    [POST_search 7%float 0 10; POST_search 7%float 1 10; POST_search 7%float 2 10] =
    map (fun page => POST_search 7%float page 10) (seq 0 (S n)) /\
    S n <= 5 /\
    forall listings,
      Fulfilled [teacher_with "Physics" (JsNumber 30%float);
                 teacher_with "Physics" (JsNumber 30%float)] = Fulfilled listings ->
      n <= List.length listings.
Proof.
  apply (pager_requests_consecutive_pages 5 physics_service 0 7%float).
  reflexivity.
Defined.

Section PipelineRequests.

Variable Number_toString : number -> string.

Local Abbreviation process := (processSubcategory Number_toString).

(** The requests and the outcome of a settled pipeline, by the way its
    pagination ended. *)
Lemma processSubcategory_requests :
  forall (fuel : nat) (up : Upstream) (pipeline : nat) (s : Subcategory.t) t r,
    process fuel up pipeline s = Some (t, Fulfilled r) ->
    exists n,
      (exists e,
          fetchAllTeachersForCategory fuel up pipeline (Subcategory.code s) =
            Some (page_requests (Subcategory.code s) 0 (S n), Rejected e) /\
          t = page_requests (Subcategory.code s) 0 (S n) /\
          r = error_result s e) \/
      (exists teachers,
          fetchAllTeachersForCategory fuel up pipeline (Subcategory.code s) =
            Some (page_requests (Subcategory.code s) 0 (S n), Fulfilled teachers) /\
          t = page_requests (Subcategory.code s) 0 (S n)
              ++ [POST_average_price (Subcategory.name s)
                    (roundedAveragePrice
                       (forEach_teachers (Subcategory.name s) teachers))]).
Proof.
  intros fuel up pipeline s t r. rewrite processSubcategory_cases.
  destruct (fetchAllTeachersForCategory fuel up pipeline (Subcategory.code s))
    as [[t1 [teachers|e]]|] eqn:E; [| |discriminate].
  - destruct (loop_requests _ _ _ _ _ _ _ _ E) as (n & -> & _).
    cbn -[postAveragePrice]. rewrite postAveragePrice_cases.
    intros H. exists n. right. exists teachers. split; [reflexivity|].
    destruct (average_price up pipeline _ _) as [response|e];
      [destruct (ok response)|]; injection H as <- _; reflexivity.
  - destruct (loop_requests _ _ _ _ _ _ _ _ E) as (n & -> & _).
    intros [= <- <-]. exists n. left. exists e. auto.
Qed.

(** X2. The requests of a pipeline that settled are the consecutive pages
    of its subcategory code and, when the pagination returned its listings,
    one publish request after them, for the name of the subcategory and
    with the rounded average of exactly these listings.  When the
    pagination threw, nothing is published and the outcome is the error. *)
Theorem pipeline_publishes_once_after_pagination :
  forall (fuel : nat) (up : Upstream) (pipeline : nat) (s : Subcategory.t) t r,
    process fuel up pipeline s = Some (t, Fulfilled r) ->
    exists n,
      (exists e,
          fetchAllTeachersForCategory fuel up pipeline (Subcategory.code s) =
            Some (page_requests (Subcategory.code s) 0 (S n), Rejected e) /\
          t = page_requests (Subcategory.code s) 0 (S n) /\
          r = error_result s e) \/
      (exists teachers,
          fetchAllTeachersForCategory fuel up pipeline (Subcategory.code s) =
            Some (page_requests (Subcategory.code s) 0 (S n), Fulfilled teachers) /\
          t = page_requests (Subcategory.code s) 0 (S n)
              ++ [POST_average_price (Subcategory.name s)
                    (roundedAveragePrice
                       (forEach_teachers (Subcategory.name s) teachers))]).
Proof. exact processSubcategory_requests. Qed.

End PipelineRequests.

Lemma pipeline_publishes_once_after_pagination_witness :
  exists n,
    (exists e,
        fetchAllTeachersForCategory 3 physics_service 1 (Subcategory.code physics) =
          Some (page_requests (Subcategory.code physics) 0 (S n), Rejected e) /\
        [POST_search 8%float 0 10; POST_search 8%float 1 10; POST_search 8%float 2 10;
         POST_average_price "Physics" 30%float] =
          page_requests (Subcategory.code physics) 0 (S n) /\
        error_result physics (Error "Failed to post average price for Physics") =
          error_result physics e) \/
    (exists teachers,
        fetchAllTeachersForCategory 3 physics_service 1 (Subcategory.code physics) =
          Some (page_requests (Subcategory.code physics) 0 (S n), Fulfilled teachers) /\
        [POST_search 8%float 0 10; POST_search 8%float 1 10; POST_search 8%float 2 10;
         POST_average_price "Physics" 30%float] =
          page_requests (Subcategory.code physics) 0 (S n)
          ++ [POST_average_price (Subcategory.name physics)
                (roundedAveragePrice
                   (forEach_teachers (Subcategory.name physics) teachers))]).
Proof.
  apply (pipeline_publishes_once_after_pagination no_text 3 physics_service 1 physics).
  reflexivity.
Defined.

(** ** Requests and outcomes of a run *)

(** [Promise.all] lists the requests of its promises one promise after the
    other. *)
Lemma Promise_all_requests {A : Type} (ps : list (Promise A)) :
  forall t l,
    Promise_all ps = Some (t, Fulfilled l) ->
    exists xs : list (list request * A),
      ps = map (fun x => Some (fst x, Fulfilled (snd x))) xs /\
      t = List.concat (map fst xs) /\ l = map snd xs.
Proof.
  induction ps as [|p ps IH]; cbn; intros t l H.
  - injection H as <- <-. exists []. auto.
  - destruct p as [[tp [a|e]]|]; cbn in H; try discriminate.
    destruct (Promise_all ps) as [[t' [l'|e]]|]; cbn in H; try discriminate.
    injection H as <- <-. destruct (IH t' l' eq_refl) as (xs & -> & -> & ->).
    exists ((tp, a) :: xs). cbn. now rewrite app_nil_r.
Qed.

Lemma In_map_from {A B : Type} (f : nat -> A -> B) (l : list A) :
  forall (i : nat) (b : B),
    In b (map_from f i l) ->
    exists n a, nth_error l n = Some a /\ b = f (i + n) a.
Proof.
  induction l as [|a l IH]; cbn; intros i b H; [contradiction|].
  destruct H as [<-|H].
  - exists 0, a. now rewrite Nat.add_0_r.
  - destruct (IH (S i) b H) as (n & a' & Hn & ->).
    exists (S n), a'. now rewrite Nat.add_succ_r.
Qed.

Lemma map_from_length {A B : Type} (f : nat -> A -> B) (l : list A) :
  forall i, List.length (map_from f i l) = List.length l.
Proof. induction l as [|a l IH]; intros i; cbn; [reflexivity|now rewrite IH]. Qed.

Lemma filter_is_publish_pages (categoryId : number) (p n : nat) :
  filter is_publish (page_requests categoryId p n) = [].
Proof.
  unfold page_requests. induction (seq p n) as [|q l IH]; [reflexivity|exact IH].
Qed.

Lemma filter_concat_bound (ts : list (list request)) :
  Forall (fun t => List.length (filter is_publish t) <= 1) ts ->
  List.length (filter is_publish (List.concat ts)) <= List.length ts.
Proof.
  induction 1 as [|t ts Ht _ IH]; cbn; [lia|].
  rewrite filter_app, length_app. lia.
Qed.

Section RunRequests.

Variable Number_toString : number -> string.

Local Abbreviation process := (processSubcategory Number_toString).
Local Abbreviation handle := (handleCalculatePrices Number_toString).

(** Every request of a settled pipeline belongs to its subcategory, and at
    most one of them is a publish request. *)
Lemma pipeline_requests_of_subcategory (fuel : nat) (up : Upstream) (pipeline : nat)
    (s : Subcategory.t) t r :
  process fuel up pipeline s = Some (t, Fulfilled r) ->
  Forall (request_of_catalog [s]) t /\ List.length (filter is_publish t) <= 1.
Proof.
  intros H.
  assert (Hpages : forall n, Forall (request_of_catalog [s])
                               (page_requests (Subcategory.code s) 0 n)).
  { intros n. unfold page_requests. apply Forall_forall. intros q Hq.
    apply in_map_iff in Hq. destruct Hq as (page & <- & _). cbn.
    split; [reflexivity|]. exists s. auto. }
  destruct (processSubcategory_requests _ fuel up pipeline s t r H)
    as (n & [(e & _ & -> & _)|(teachers & _ & ->)]).
  - split; [apply Hpages|]. rewrite filter_is_publish_pages. cbn. lia.
  - split.
    + apply Forall_app. split; [apply Hpages|].
      constructor; [|constructor]. cbn. exists s. auto.
    + rewrite filter_app, filter_is_publish_pages. cbn. lia.
Qed.

End RunRequests.

Lemma request_of_catalog_incl (subs : list Subcategory.t) (s : Subcategory.t)
    (q : request) :
  In s subs -> request_of_catalog [s] q -> request_of_catalog subs q.
Proof.
  intros Hs. destruct q as [|categoryId page size|categoryName average]; cbn.
  - auto.
  - intros (Hsize & s' & [<-|[]] & Hcode). eauto.
  - intros (s' & [<-|[]] & Hname). eauto.
Qed.

Section Runs.

Variable Number_toString : number -> string.

Local Abbreviation process := (processSubcategory Number_toString).
Local Abbreviation handle := (handleCalculatePrices Number_toString).

(** The [Promise.all] of the pipelines is never rejected. *)
Lemma pipelines_never_reject (fuel : nat) (up : Upstream) (subs : list Subcategory.t) :
  forall i t out,
    Promise_all (map_from (process fuel up) i subs) = Some (t, out) ->
    exists rs, out = Fulfilled rs.
Proof.
  induction subs as [|s subs IH]; cbn; intros i t out H.
  - injection H as _ <-. eauto.
  - destruct (process fuel up i s) as [[ti [r|e]]|] eqn:Ep; cbn in H; try discriminate.
    + destruct (Promise_all (map_from (process fuel up) (S i) subs))
        as [[t2 [rs|e2]]|] eqn:E2; cbn in H; try discriminate.
      * injection H as _ <-. eauto.
      * destruct (IH _ _ _ E2) as (rs & [=]).
    + apply processSubcategory_never_rejects in Ep. destruct Ep as (r & [=] & _).
Qed.

(** X3. In a finished run over a catalog with subcategories, the first
    request is the one for the catalog and it is the only one of its kind;
    every other request is a search with page size 10 for the code of a
    subcategory of the catalog, or the publication of an average under the
    name of a subcategory of the catalog; and there are at most as many
    publish requests as subcategories. *)
Theorem run_requests_belong_to_catalog :
  forall (fuel : nat) (up : Upstream) (st : State.t) (cats : list Category.t) t st',
    fetchCategories up = Some ([GET_categories], Fulfilled (Some cats)) ->
    allSubcategories cats <> [] ->
    handle fuel up st = Some (t, st') ->
    exists t',
      t = GET_categories :: t' /\
      Forall (request_of_catalog (allSubcategories cats)) t' /\
      List.length (filter is_publish t') <= List.length (allSubcategories cats).
Proof.
  intros fuel up st cats t st' Hfetch Hsubs.
  rewrite (handle_with_catalog _ fuel up st cats Hfetch Hsubs).
  destruct (Promise_all _) as [[t' out]|] eqn:E; [|discriminate].
  destruct (pipelines_never_reject _ _ _ _ _ _ E) as (rs & ->).
  intros [= <- _]. exists t'. split; [reflexivity|].
  destruct (Promise_all_requests _ _ _ E) as (xs & Hxs & -> & _).
  assert (Heach : Forall (fun ti => Forall (request_of_catalog (allSubcategories cats)) ti
                                    /\ List.length (filter is_publish ti) <= 1)
                         (map fst xs)).
  { apply Forall_forall. intros ti Hti. apply in_map_iff in Hti.
    destruct Hti as ([ti' r] & <- & Hx). cbn.
    assert (Hin : In (Some (ti', Fulfilled r))
                     (map_from (process fuel up) 0 (allSubcategories cats))).
    { rewrite Hxs. apply in_map_iff. exists (ti', r). auto. }
    apply In_map_from in Hin. destruct Hin as (n & s & Hn & Hp). cbn in Hp.
    symmetry in Hp. apply pipeline_requests_of_subcategory in Hp.
    destruct Hp as (Hreq & Hcount). split; [|exact Hcount].
    apply Forall_forall. intros q Hq.
    apply (request_of_catalog_incl _ s); [now apply nth_error_In in Hn|].
    revert q Hq. now apply Forall_forall. }
  split.
  - apply Forall_concat. revert Heach. apply Forall_impl. tauto.
  - assert (Hlen : List.length (map fst xs) = List.length (allSubcategories cats)).
    { rewrite length_map, <- (length_map (fun x => Some (fst x, Fulfilled (snd x)))),
        <- Hxs. apply map_from_length. }
    rewrite <- Hlen. apply filter_concat_bound. revert Heach. apply Forall_impl. tauto.
Qed.

End Runs.

Lemma allSubcategories_nil (cats : list Category.t) :
  allSubcategories cats = [] <->
  forall c, In c cats ->
    Category.childrenCategories c = None \/ Category.childrenCategories c = Some [].
Proof.
  unfold allSubcategories. induction cats as [|c cats IH]; cbn.
  - split; [intros _ c []|reflexivity].
  - split.
    + intros H. apply app_eq_nil in H. destruct H as (Hc & Hrest).
      intros c' [<-|Hin]; [|now apply IH].
      destruct (Category.childrenCategories c) as [l|]; [right; now subst|now left].
    + intros H. rewrite (proj2 IH) by (intros c' Hc'; apply H; now right).
      destruct (H c (or_introl eq_refl)) as [->| ->]; reflexivity.
Qed.

Lemma In_allSubcategories (cats : list Category.t) (s : Subcategory.t) :
  In s (allSubcategories cats) <->
  exists c l, In c cats /\ Category.childrenCategories c = Some l /\ In s l.
Proof.
  unfold allSubcategories. rewrite in_flat_map. split.
  - intros (c & Hc & Hs). destruct (Category.childrenCategories c) as [l|] eqn:E;
      [eauto|contradiction].
  - intros (c & l & Hc & Hl & Hs). exists c. now rewrite Hl.
Qed.

Lemma state_while_running_eq (st : State.t) :
  state_while_running st =
  {| State.isLoading := true; State.results := []; State.error := None |}.
Proof. reflexivity. Qed.

Section FinishedRuns.

Variable Number_toString : number -> string.

Local Abbreviation process := (processSubcategory Number_toString).
Local Abbreviation handle := (handleCalculatePrices Number_toString).

(** The handler without a Report: the catalog request is the only one. *)
Lemma handle_without_subcategories (fuel : nat) (up : Upstream) (st : State.t)
    (body : option (list Category.t)) :
  fetchCategories up = Some ([GET_categories], Fulfilled body) ->
  match body with
  | None | Some [] =>
      handle fuel up st =
      Some ([GET_categories],
            {| State.isLoading := false; State.results := [];
               State.error := Some "No categories found." |})
  | Some cats =>
      allSubcategories cats = [] ->
      handle fuel up st =
      Some ([GET_categories],
            {| State.isLoading := false; State.results := [];
               State.error := Some "No subcategories found to process." |})
  end.
Proof.
  intros Hfetch. unfold handleCalculatePrices, try_block. rewrite Hfetch.
  cbn [await]. destruct body as [[|c cats]|]; try reflexivity.
  intros ->. reflexivity.
Qed.

(** X4. When the catalog request succeeds with no category at all (a null
    body or an empty array), the run stops after this one request with the
    message "No categories found.", no result, and [isLoading] false. *)
Theorem empty_catalog_stops_the_run :
  forall (fuel : nat) (up : Upstream) (st : State.t)
         (body : option (list Category.t)),
    fetchCategories up = Some ([GET_categories], Fulfilled body) ->
    body = None \/ body = Some [] ->
    handle fuel up st =
    Some ([GET_categories],
          {| State.isLoading := false; State.results := [];
             State.error := Some "No categories found." |}).
Proof.
  intros fuel up st body Hfetch [->| ->];
    exact (handle_without_subcategories fuel up st _ Hfetch).
Qed.

(** X5. When the catalog has categories but none of them has a subcategory
    (its [childrenCategories] is missing or empty), the run stops after the
    catalog request with the message "No subcategories found to process.":
    no search and no publish request is issued, and there is no result. *)
Theorem catalog_without_subcategories_stops_the_run :
  forall (fuel : nat) (up : Upstream) (st : State.t) (cats : list Category.t),
    fetchCategories up = Some ([GET_categories], Fulfilled (Some cats)) ->
    cats <> [] ->
    (forall c, In c cats ->
       Category.childrenCategories c = None \/ Category.childrenCategories c = Some []) ->
    handle fuel up st =
    Some ([GET_categories],
          {| State.isLoading := false; State.results := [];
             State.error := Some "No subcategories found to process." |}).
Proof.
  intros fuel up st cats Hfetch Hcats Hnone.
  assert (H := handle_without_subcategories fuel up st _ Hfetch).
  destruct cats as [|c cats]; [now destruct Hcats|].
  apply H. now apply allSubcategories_nil.
Qed.

(** The two ways a run finishes. *)
Lemma handle_finished (fuel : nat) (up : Upstream) (st : State.t) t st' :
  handle fuel up st = Some (t, st') ->
  State.isLoading st' = false /\
  ((exists m, State.error st' = Some m /\ State.results st' = [] /\
              t = [GET_categories]) \/
   (State.error st' = None /\ State.results st' <> [] /\
    exists cats,
      fetchCategories up = Some ([GET_categories], Fulfilled (Some cats)) /\
      List.length (State.results st') = List.length (allSubcategories cats))).
Proof.
  intros Hrun. assert (Hf := fetchCategories_cases up).
  set (out := match categories up with
              | Fulfilled response =>
                  if ok response then json response
                  else Rejected (Error "Failed to fetch categories")
              | Rejected e => Rejected e
              end) in Hf.
  destruct out as [body|e].
  - assert (Hno := handle_without_subcategories fuel up st body Hf).
    destruct body as [[|c cats]|].
    + rewrite Hno in Hrun. injection Hrun as <- <-. split; [reflexivity|]. left. eexists. repeat split.
    + destruct (allSubcategories (c :: cats)) as [|s subs] eqn:Es.
      * rewrite (Hno eq_refl) in Hrun. injection Hrun as <- <-.
        split; [reflexivity|]. left. eexists. repeat split.
      * assert (Hsubs : allSubcategories (c :: cats) <> []) by (rewrite Es; discriminate).
        destruct (handle_results _ fuel up st st' _ t Hf Hsubs Hrun)
          as (Hload & Herr & Hlen & _).
        split; [exact Hload|]. right. split; [exact Herr|]. split.
        -- intros E. rewrite E, Es in Hlen. discriminate.
        -- exists (c :: cats). auto.
    + rewrite Hno in Hrun. injection Hrun as <- <-. split; [reflexivity|]. left. eexists. repeat split.
  - unfold handleCalculatePrices, try_block in Hrun. rewrite Hf in Hrun.
    injection Hrun as <- <-. split; [reflexivity|]. left. eexists. repeat split.
Qed.

(** X6. Every run that finishes, from whatever state and against whatever
    service, leaves [isLoading] false and exactly one of two things: an
    error message with no result, after the catalog request alone, or no
    error and a Report that is not empty, with one result per subcategory
    of the catalog.  It never leaves an error together with results. *)
Theorem finished_run_has_error_or_report :
  forall (fuel : nat) (up : Upstream) (st : State.t) t st',
    handle fuel up st = Some (t, st') ->
    State.isLoading st' = false /\
    ((exists m, State.error st' = Some m /\ State.results st' = [] /\
                t = [GET_categories]) \/
     (State.error st' = None /\ State.results st' <> [] /\
      exists cats,
        fetchCategories up = Some ([GET_categories], Fulfilled (Some cats)) /\
        List.length (State.results st') = List.length (allSubcategories cats))).
Proof. exact handle_finished. Qed.

(** X7. The handler starts by resetting the state, so what a run does and
    leaves does not depend on the state it starts from; in particular a
    second run against a service that answers the same way issues the same
    requests and leaves the same state as the first. *)
Theorem run_does_not_depend_on_previous_state :
  forall (fuel : nat) (up : Upstream) (st : State.t),
    (forall st0, handle fuel up st0 = handle fuel up st) /\
    (forall t st', handle fuel up st = Some (t, st') ->
                   handle fuel up st' = Some (t, st')).
Proof.
  intros fuel up st.
  assert (H : forall st0, handle fuel up st0 = handle fuel up st) by reflexivity.
  split; [exact H|]. intros t st' Hrun. now rewrite (H st').
Qed.

(** X8. In a finished run with a Report, every subcategory listed under a
    category of the catalog has a result with its name, and every result
    has the name of a subcategory listed under a category of the catalog:
    no subcategory is dropped and no result is invented. *)
Theorem report_covers_every_subcategory :
  forall (fuel : nat) (up : Upstream) (st : State.t) (cats : list Category.t) t st',
    fetchCategories up = Some ([GET_categories], Fulfilled (Some cats)) ->
    allSubcategories cats <> [] ->
    handle fuel up st = Some (t, st') ->
    (forall c l s,
        In c cats -> Category.childrenCategories c = Some l -> In s l ->
        exists r, In r (State.results st') /\
                  CalculationResult.categoryName r = Subcategory.name s) /\
    (forall r, In r (State.results st') ->
       exists c l s,
         In c cats /\ Category.childrenCategories c = Some l /\ In s l /\
         CalculationResult.categoryName r = Subcategory.name s).
Proof.
  intros fuel up st cats t st' Hfetch Hsubs Hrun.
  destruct (handle_results _ fuel up st st' cats t Hfetch Hsubs Hrun)
    as (_ & _ & Hlen & Hnth).
  split.
  - intros c l s Hc Hl Hs.
    assert (Hin : In s (allSubcategories cats)) by (apply In_allSubcategories; eauto).
    apply In_nth_error in Hin. destruct Hin as (i & Hi).
    destruct (Hnth i s Hi) as (ti & r & Hp & Hr).
    exists r. split; [now apply nth_error_In in Hr|].
    apply processSubcategory_never_rejects in Hp.
    destruct Hp as (r' & [= <-] & Hname). exact Hname.
  - intros r Hr. apply In_nth_error in Hr. destruct Hr as (i & Hi).
    assert (Hlt : i < List.length (allSubcategories cats)).
    { rewrite <- Hlen. apply nth_error_Some. congruence. }
    destruct (nth_error (allSubcategories cats) i) as [s|] eqn:Es;
      [|apply nth_error_None in Es; lia].
    destruct (Hnth i s Es) as (ti & r' & Hp & Hr'). assert (r' = r) by congruence. subst.
    apply processSubcategory_never_rejects in Hp.
    destruct Hp as (r' & [= <-] & Hname).
    apply nth_error_In, In_allSubcategories in Es.
    destruct Es as (c & l & Hc & Hl & Hs). exists c, l, s. auto.
Qed.

End FinishedRuns.

(** ** Pipelines whose pagination is cut short *)

Section CutShort.

Variable Number_toString : number -> string.

Local Abbreviation process := (processSubcategory Number_toString).

(** X9. A pipeline cannot tell a pagination cut short by a response that is
    not ok from a complete one: against two services that give the same
    pages that are not empty and the same answers to the publish call, one
    answering the next page with a status that is not ok and the other with
    an empty batch, the pipeline issues the same requests, publishes the
    same average and returns the same outcome. *)
Theorem cut_short_pagination_gives_the_same_outcome :
  forall (fuel : nat) (up up' : Upstream) (pipeline : nat) (s : Subcategory.t)
         (bs : list (list Teacher.t)),
    pages_are up pipeline (Subcategory.code s) 0 bs ->
    pages_are up' pipeline (Subcategory.code s) 0 bs ->
    page_result_of up pipeline (Subcategory.code s) (List.length bs) = NotOk ->
    page_result_of up' pipeline (Subcategory.code s) (List.length bs) = Batch [] ->
    average_price up' pipeline = average_price up pipeline ->
    List.length bs < fuel ->
    process fuel up pipeline s = process fuel up' pipeline s /\
    exists out,
      process fuel up pipeline s =
      Some (page_requests (Subcategory.code s) 0 (S (List.length bs))
            ++ [POST_average_price (Subcategory.name s)
                  (roundedAveragePrice
                     (forEach_teachers (Subcategory.name s) (List.concat bs)))],
            Fulfilled out).
Proof.
  intros fuel up up' pipeline s bs Hp Hp' He He' Hpub Hfuel.
  rewrite !processSubcategory_cases.
  rewrite (pagination_result up pipeline _ bs fuel Hp) by (rewrite ?He; auto).
  rewrite (pagination_result up' pipeline _ bs fuel Hp') by (rewrite ?He'; auto).
  cbn -[postAveragePrice]. rewrite !postAveragePrice_cases, Hpub. split; [reflexivity|].
  destruct (average_price up pipeline _ _) as [response|e];
    [destruct (ok response)|]; eauto.
Qed.

(** X10. When the response to the very first search request of a
    subcategory is not ok, the pipeline does not fail: it publishes the
    average 0 under the name of the subcategory, and when this publish call
    succeeds the outcome is a success with the average 0. *)
Theorem failed_first_search_is_published_as_zero :
  forall (fuel : nat) (up : Upstream) (pipeline : nat) (s : Subcategory.t)
         (tp : list request) (response : Response unit),
    page_result_of up pipeline (Subcategory.code s) 0 = NotOk ->
    0 < fuel ->
    postAveragePrice up pipeline (Subcategory.name s) 0%float =
      Some (tp, Fulfilled response) ->
    exists r,
      process fuel up pipeline s =
      Some ([POST_search (Subcategory.code s) 0 10;
             POST_average_price (Subcategory.name s) 0%float],
            Fulfilled r) /\
      CalculationResult.status r = Status.success /\
      CalculationResult.averagePrice r = 0%float /\
      CalculationResult.categoryName r = Subcategory.name s.
Proof.
  intros fuel up pipeline s tp response He Hfuel Hpost.
  rewrite processSubcategory_cases.
  rewrite (pagination_result up pipeline _ [] fuel I) by (cbn; rewrite ?He; auto).
  cbn -[postAveragePrice]. change (roundedAveragePrice _) with 0%float.
  rewrite Hpost. rewrite postAveragePrice_cases in Hpost. injection Hpost as <- _.
  eexists. split; [reflexivity|]. repeat split.
Qed.

(** X11. The message of an error outcome.  When a search request of the
    pipeline is rejected with an Error, the outcome carries the message of
    this Error and no average is published; when the response to the
    publish call is not ok, the message is "Failed to post average price
    for " followed by the name of the subcategory. *)
Theorem error_outcome_messages :
  (forall (fuel : nat) (up : Upstream) (pipeline : nat) (s : Subcategory.t)
          (bs : list (list Teacher.t)) (m : string),
      pages_are up pipeline (Subcategory.code s) 0 bs ->
      page_result_of up pipeline (Subcategory.code s) (List.length bs)
        = Threw (Error m) ->
      List.length bs < fuel ->
      exists r,
        process fuel up pipeline s =
        Some (page_requests (Subcategory.code s) 0 (S (List.length bs)),
              Fulfilled r) /\
        CalculationResult.status r = Status.error /\
        CalculationResult.message r = Some m) /\
  (forall (fuel : nat) (up : Upstream) (pipeline : nat) (s : Subcategory.t)
          (t : list request) (teachers : list Teacher.t) (response : Response unit),
      fetchAllTeachersForCategory fuel up pipeline (Subcategory.code s) =
        Some (t, Fulfilled teachers) ->
      average_price up pipeline (Subcategory.name s)
        (roundedAveragePrice (forEach_teachers (Subcategory.name s) teachers))
        = Fulfilled response ->
      ok response = false ->
      exists t' r,
        process fuel up pipeline s = Some (t', Fulfilled r) /\
        CalculationResult.status r = Status.error /\
        CalculationResult.message r =
          Some ("Failed to post average price for " ++ Subcategory.name s)%string).
Proof.
  split.
  - intros fuel up pipeline s bs m Hp He Hfuel.
    rewrite processSubcategory_cases.
    rewrite (pager_throws_on_rejection up pipeline _ bs _ fuel Hp He Hfuel).
    eexists. split; [reflexivity|]. split; reflexivity.
  - intros fuel up pipeline s t teachers response Hfetch Hanswer Hok.
    rewrite processSubcategory_cases, Hfetch. cbn zeta.
    rewrite postAveragePrice_cases, Hanswer, Hok.
    do 2 eexists. split; [reflexivity|]. split; reflexivity.
Qed.

End CutShort.

(** ** Counting teachers *)

(** X12. The scan counts a teacher at most once, so the count never
    exceeds the number of listings; two teachers with the same first
    matching entry are counted alike, whatever entries follow it; and
    scanning the listings of several pages continues the scan of the first
    ones: the counts add up and the sum goes on from the sum so far. *)
Theorem scan_counts_each_teacher_at_most_once :
  forall subcategoryName : string,
    (forall teachers : list Teacher.t,
        teachersWithPriceForCategory (forEach_teachers subcategoryName teachers)
        <= List.length teachers) /\
    (forall (acc : totals) (teacher teacher' : Teacher.t) (cat : TeacherCategoryInfo.t),
        first_match subcategoryName teacher cat ->
        first_match subcategoryName teacher' cat ->
        forEach_body subcategoryName acc teacher =
        forEach_body subcategoryName acc teacher') /\
    (forall l1 l2 : list Teacher.t,
        teachersWithPriceForCategory (forEach_teachers subcategoryName (l1 ++ l2)) =
        teachersWithPriceForCategory (forEach_teachers subcategoryName l1)
        + teachersWithPriceForCategory (forEach_teachers subcategoryName l2) /\
        totalPrice (forEach_teachers subcategoryName (l1 ++ l2)) =
        fold_left PrimFloat.add (contributing_prices subcategoryName l2)
          (totalPrice (forEach_teachers subcategoryName l1))).
Proof.
  intros subcategoryName. split; [|split].
  - intros teachers. rewrite forEach_teachers_totals. cbn.
    unfold contributing_prices. induction teachers as [|teacher teachers IH]; cbn; [lia|].
    rewrite length_app. destruct (contribution subcategoryName teacher); cbn; lia.
  - intros acc teacher teacher' cat H H'.
    apply relevantCategory_first_match in H, H'.
    unfold forEach_body. now rewrite H, H'.
  - intros l1 l2. rewrite !forEach_teachers_totals. cbn.
    unfold contributing_prices, sum_prices.
    rewrite flat_map_app, length_app, fold_left_app. split; reflexivity.
Qed.

Lemma scan_counts_each_teacher_at_most_once_witness :
  forEach_body "Physics" {| totalPrice := 5%float; teachersWithPriceForCategory := 1 |}
    {| Teacher.id := "a";
       Teacher.categories :=
         Some [ {| TeacherCategoryInfo.name := "Physics";
                   TeacherCategoryInfo.pricePerHour := JsString "30" |};
                {| TeacherCategoryInfo.name := "Physics";
                   TeacherCategoryInfo.pricePerHour := JsNumber 30%float |} ] |} =
  forEach_body "Physics" {| totalPrice := 5%float; teachersWithPriceForCategory := 1 |}
    (teacher_with "Physics" (JsString "30")).
Proof.
  apply (proj1 (proj2 (scan_counts_each_teacher_at_most_once "Physics"))
           _ _ _ {| TeacherCategoryInfo.name := "Physics";
                    TeacherCategoryInfo.pricePerHour := JsString "30" |}).
  - exists [], [ {| TeacherCategoryInfo.name := "Physics";
                    TeacherCategoryInfo.pricePerHour := JsNumber 30%float |} ].
    repeat split. constructor.
  - exists [], []. repeat split. constructor.
Defined.

(** ** What is displayed *)

(** The [try] block of the handler runs in [state_while_running]: no setter
    is called between the three at the head of the handler and the end of a
    path through the block. *)
Lemma handle_runs_in_state_while_running (Number_toString : number -> string)
    (fuel : nat) (up : Upstream) (st : State.t) :
  handleCalculatePrices Number_toString fuel up st =
  match try_block Number_toString fuel up (state_while_running st) with
  | None => None
  | Some (t, Fulfilled st2) => Some (t, setIsLoading false st2)
  | Some (t, Rejected e) =>
      Some (t, setIsLoading false
                 (setError (Some (message_or e "An unexpected error occurred."))
                    (state_while_running st)))
  end.
Proof. reflexivity. Qed.

Section Display.

Variable Number_toString : number -> string.
Variable Number_toFixed : number -> nat -> string.

Local Abbreviation handle := (handleCalculatePrices Number_toString).
Local Abbreviation view := (render Number_toFixed).

(** X13. While a run is in progress the button is disabled and neither the
    error panel nor the list of results is displayed, whatever was
    displayed before the click.  Once a run has finished the button is
    enabled again and the loading note is gone; the list of results is
    displayed exactly when the run left no error, with one row per result;
    the error panel is displayed exactly when the run left an error message
    that is not the empty string; and the two are never displayed
    together. *)
Theorem display_shows_error_or_results :
  forall (fuel : nat) (up : Upstream) (st : State.t),
    view (state_while_running st) =
      {| View.button_disabled := true;
         View.button_label := "Calculating...";
         View.loading_note := Some "Fetching categories and teachers.";
         View.error_panel := None;
         View.results_list := None |} /\
    forall t st',
      handle fuel up st = Some (t, st') ->
      View.button_disabled (view st') = false /\
      View.button_label (view st') = "Calculate Average Prices" /\
      View.loading_note (view st') = None /\
      (State.error st' = None <->
       View.results_list (view st') = Some (map (render_row Number_toFixed)
                                               (State.results st'))) /\
      (View.results_list (view st') = None <-> State.error st' <> None) /\
      (forall m, View.error_panel (view st') = Some m <->
                 State.error st' = Some m /\ m <> "") /\
      (View.error_panel (view st') = None \/ View.results_list (view st') = None).
Proof.
  intros fuel up st. split; [reflexivity|].
  intros t st' Hrun. destruct (handle_finished _ _ _ _ _ _ Hrun) as (Hload & Hshape).
  assert (Hpanel : forall m, View.error_panel (view st') = Some m <->
                             State.error st' = Some m /\ m <> "").
  { intros m. cbn. destruct (State.error st') as [[|c rest]|].
    - split; [discriminate|]. intros ([= <-] & H). now destruct H.
    - split; [intros [= <-]; split; [reflexivity|discriminate]|intros (H & _); exact H].
    - split; [discriminate|intros (H & _); discriminate]. }
  assert (Hlist : View.results_list (view st') =
                  match State.results st' with
                  | [] => None
                  | _ :: _ => Some (map (render_row Number_toFixed) (State.results st'))
                  end).
  { cbn. rewrite Hload. destruct (State.results st'); reflexivity. }
  split; [exact Hload|]. split; [cbn; now rewrite Hload|].
  split; [cbn; now rewrite Hload|].
  destruct Hshape as [(m & Herr & Hres & _)|(Herr & Hres & _)].
  - assert (Hnone : View.results_list (view st') = None) by now rewrite Hlist, Hres.
    split; [rewrite Hnone, Herr; split; discriminate|].
    split; [rewrite Herr; split; [discriminate|intros _; exact Hnone]|].
    split; [exact Hpanel|]. now right.
  - assert (Hsome : View.results_list (view st') =
                    Some (map (render_row Number_toFixed) (State.results st'))).
    { rewrite Hlist. destruct (State.results st'); [now destruct Hres|reflexivity]. }
    split; [split; [intros _; exact Hsome|intros _; exact Herr]|].
    split; [rewrite Hsome, Herr; split; [discriminate|intros H; now destruct H]|].
    split; [exact Hpanel|]. left.
    destruct (View.error_panel (view st')) as [m|]; [exfalso|reflexivity].
    destruct (proj1 (Hpanel m) eq_refl) as (E & _). congruence.
Qed.

End Display.

Section Rows.

Variable Number_toString : number -> string.
Variable Number_toFixed : number -> nat -> string.

Local Abbreviation process := (processSubcategory Number_toString).
Local Abbreviation handle := (handleCalculatePrices Number_toString).
Local Abbreviation view := (render Number_toFixed).

Lemma render_row_failed (r : CalculationResult.t) :
  Row.amount (render_row Number_toFixed r) = "Failed" <->
  CalculationResult.status r = Status.error.
Proof.
  unfold render_row. cbn. destruct (CalculationResult.status r); cbn.
  - split; discriminate.
  - split; reflexivity.
Qed.

(** X14. After a run with a Report, the list displays one row per
    subcategory of the catalog, in the order of the flattened catalog, each
    under the name of its subcategory, which is also its key: the keys are
    distinct as soon as the names of the subcategories are.  The row of a
    result shows Failed, and no price, exactly when the result is an
    error, so the average 0 of an error is never displayed as a price. *)
Theorem rows_follow_the_catalog :
  forall (fuel : nat) (up : Upstream) (st : State.t) (cats : list Category.t) t st',
    fetchCategories up = Some ([GET_categories], Fulfilled (Some cats)) ->
    allSubcategories cats <> [] ->
    handle fuel up st = Some (t, st') ->
    exists rows,
      View.results_list (view st') = Some rows /\
      map Row.key rows = map Subcategory.name (allSubcategories cats) /\
      map Row.categoryName rows = map Subcategory.name (allSubcategories cats) /\
      (NoDup (map Subcategory.name (allSubcategories cats)) ->
       NoDup (map Row.key rows)) /\
      (forall i r, nth_error (State.results st') i = Some r ->
         exists row,
           nth_error rows i = Some row /\
           Row.message row = CalculationResult.message r /\
           (Row.amount row = "Failed" <->
            CalculationResult.status r = Status.error)).
Proof.
  intros fuel up st cats t st' Hfetch Hsubs Hrun.
  destruct (handle_results _ fuel up st st' cats t Hfetch Hsubs Hrun)
    as (Hload & Herr & Hlen & Hnth).
  assert (Hnames : map CalculationResult.categoryName (State.results st') =
                   map Subcategory.name (allSubcategories cats)).
  { apply nth_error_names; [assumption|].
    intros i s Hi. destruct (Hnth i s Hi) as (ti & r & Hp & Hr).
    exists r. split; [assumption|].
    apply processSubcategory_never_rejects in Hp.
    destruct Hp as (r' & [= <-] & Hname). exact Hname. }
  exists (map (render_row Number_toFixed) (State.results st')).
  assert (Hkeys : map Row.key (map (render_row Number_toFixed) (State.results st')) =
                  map Subcategory.name (allSubcategories cats)).
  { rewrite map_map. exact Hnames. }
  split; [|split; [exact Hkeys|split; [|split]]].
  - cbn. rewrite Hload.
    destruct (State.results st') as [|r rs]; [|reflexivity].
    destruct (allSubcategories cats); [now destruct Hsubs|discriminate].
  - rewrite map_map. exact Hnames.
  - now rewrite Hkeys.
  - intros i r Hi. exists (render_row Number_toFixed r). split.
    + now rewrite nth_error_map, Hi.
    + split; [reflexivity|apply render_row_failed].
Qed.

End Rows.

(** ** Instances *)

Lemma run_requests_belong_to_catalog_witness :
  exists t',
    [GET_categories;
     POST_search 7%float 0 10; POST_search 7%float 1 10; POST_search 7%float 2 10;
     POST_average_price "Mathematics" 0%float;
     POST_search 8%float 0 10; POST_search 8%float 1 10; POST_search 8%float 2 10;
     POST_average_price "Physics" 30%float] = GET_categories :: t' /\
    Forall (request_of_catalog (allSubcategories [sciences])) t' /\
    List.length (filter is_publish t') <= List.length (allSubcategories [sciences]).
Proof.
  apply (run_requests_belong_to_catalog no_text 3 physics_service initial_state
           [sciences] _
           {| State.isLoading := false;
              State.results :=
                [success_result no_text mathematics
                   {| totalPrice := 0%float; teachersWithPriceForCategory := 0 |};
                 error_result physics (Error "Failed to post average price for Physics")];
              State.error := None |}).
  - reflexivity.
  - discriminate.
  - reflexivity.
Defined.

Lemma empty_catalog_stops_the_run_witness :
  handleCalculatePrices no_text 0 (catalog_service (Some [])) initial_state =
  Some ([GET_categories],
        {| State.isLoading := false; State.results := [];
           State.error := Some "No categories found." |}).
Proof.
  apply (empty_catalog_stops_the_run no_text 0 (catalog_service (Some []))
           initial_state (Some [])).
  - reflexivity.
  - now right.
Defined.

Lemma catalog_without_subcategories_stops_the_run_witness :
  handleCalculatePrices no_text 0 (catalog_service (Some [languages; arts]))
    initial_state =
  Some ([GET_categories],
        {| State.isLoading := false; State.results := [];
           State.error := Some "No subcategories found to process." |}).
Proof.
  apply (catalog_without_subcategories_stops_the_run no_text 0
           (catalog_service (Some [languages; arts])) initial_state [languages; arts]).
  - reflexivity.
  - discriminate.
  - intros c [<-|[<-|[]]]; [now left|now right].
Defined.

Lemma finished_run_has_error_or_report_witness :
  exists t st',
    handleCalculatePrices no_text 3 physics_service initial_state = Some (t, st') /\
    State.isLoading st' = false /\
    State.error st' = None /\ State.results st' <> [].
Proof.
  assert (H : exists t st',
             handleCalculatePrices no_text 3 physics_service initial_state
             = Some (t, st')) by (do 2 eexists; reflexivity).
  destruct H as (t & st' & Hrun). exists t, st'. split; [exact Hrun|].
  destruct (finished_run_has_error_or_report no_text 3 physics_service initial_state
              t st' Hrun) as (Hload & [(m & Herr & Hres & Ht)|(Herr & Hres & _)]).
  - exfalso. vm_compute in Hrun. injection Hrun as <- _. discriminate.
  - auto.
Defined.

Lemma run_does_not_depend_on_previous_state_witness :
  handleCalculatePrices no_text 3 physics_service
    {| State.isLoading := false;
       State.results := [error_result physics NonError];
       State.error := Some "Failed to fetch categories" |} =
  handleCalculatePrices no_text 3 physics_service initial_state.
Proof.
  apply (proj1 (run_does_not_depend_on_previous_state no_text 3 physics_service
                  initial_state)).
Defined.

Lemma report_covers_every_subcategory_witness :
  exists t st',
    handleCalculatePrices no_text 3 physics_service initial_state = Some (t, st') /\
    exists r, In r (State.results st') /\
              CalculationResult.categoryName r = "Physics".
Proof.
  assert (H : exists t st',
             handleCalculatePrices no_text 3 physics_service initial_state
             = Some (t, st')) by (do 2 eexists; reflexivity).
  destruct H as (t & st' & Hrun). exists t, st'. split; [exact Hrun|].
  destruct (report_covers_every_subcategory no_text 3 physics_service initial_state
              [sciences] t st' eq_refl) as (Hall & _); [discriminate|exact Hrun|].
  apply (Hall sciences [mathematics; physics] physics); cbn; auto.
Defined.

Lemma cut_short_pagination_gives_the_same_outcome_witness :
  processSubcategory no_text 3
    (pages_then 2 (teacher_with "Physics" (JsNumber 30%float)) not_ok_response)
    1 physics =
  processSubcategory no_text 3
    (pages_of_one 2 (teacher_with "Physics" (JsNumber 30%float))) 1 physics.
Proof.
  apply (cut_short_pagination_gives_the_same_outcome no_text 3
           (pages_then 2 (teacher_with "Physics" (JsNumber 30%float)) not_ok_response)
           (pages_of_one 2 (teacher_with "Physics" (JsNumber 30%float)))
           1 physics
           [[teacher_with "Physics" (JsNumber 30%float)];
            [teacher_with "Physics" (JsNumber 30%float)]]).
  - cbn. repeat split; discriminate.
  - cbn. repeat split; discriminate.
  - reflexivity.
  - reflexivity.
  - reflexivity.
  - cbn. lia.
Defined.

Lemma failed_first_search_is_published_as_zero_witness :
  exists r,
    processSubcategory no_text 1 (catalog_service (Some [sciences])) 0 mathematics =
    Some ([POST_search 7%float 0 10; POST_average_price "Mathematics" 0%float],
          Fulfilled r) /\
    CalculationResult.status r = Status.success /\
    CalculationResult.averagePrice r = 0%float /\
    CalculationResult.categoryName r = "Mathematics".
Proof.
  apply (failed_first_search_is_published_as_zero no_text 1
           (catalog_service (Some [sciences])) 0 mathematics
           [POST_average_price "Mathematics" 0%float]
           {| ok := true; json := Fulfilled tt |}).
  - reflexivity.
  - lia.
  - reflexivity.
Defined.

Lemma error_outcome_messages_witness :
  exists r,
    processSubcategory no_text 3
      (unreachable_after 2 (teacher_with "Physics" (JsNumber 30%float))) 1 physics =
    Some (page_requests 8%float 0 3, Fulfilled r) /\
    CalculationResult.status r = Status.error /\
    CalculationResult.message r = Some "Failed to fetch".
Proof.
  apply (proj1 (error_outcome_messages no_text) 3
           (unreachable_after 2 (teacher_with "Physics" (JsNumber 30%float)))
           1 physics
           [[teacher_with "Physics" (JsNumber 30%float)];
            [teacher_with "Physics" (JsNumber 30%float)]]).
  - cbn. repeat split; discriminate.
  - reflexivity.
  - cbn. lia.
Defined.

Lemma display_shows_error_or_results_witness :
  View.error_panel
    (render two_decimals
       {| State.isLoading := false; State.results := [];
          State.error := Some "No categories found." |}) =
    Some "No categories found." /\
  View.results_list
    (render two_decimals
       {| State.isLoading := false; State.results := [];
          State.error := Some "No categories found." |}) = None.
Proof.
  assert (H := proj2 (display_shows_error_or_results no_text two_decimals 0
                        (catalog_service None) initial_state)
                 [GET_categories]
                 {| State.isLoading := false; State.results := [];
                    State.error := Some "No categories found." |} eq_refl).
  destruct H as (_ & _ & _ & _ & Hnone & Hpanel & _). split.
  - apply Hpanel. split; [reflexivity|discriminate].
  - apply Hnone. discriminate.
Defined.

Lemma rows_follow_the_catalog_witness :
  exists t st' rows,
    handleCalculatePrices no_text 3 physics_service initial_state = Some (t, st') /\
    View.results_list (render two_decimals st') = Some rows /\
    map Row.key rows = ["Mathematics"; "Physics"] /\
    NoDup (map Row.key rows).
Proof.
  assert (H : exists t st',
             handleCalculatePrices no_text 3 physics_service initial_state
             = Some (t, st')) by (do 2 eexists; reflexivity).
  destruct H as (t & st' & Hrun).
  destruct (rows_follow_the_catalog no_text two_decimals 3 physics_service
              initial_state [sciences] t st' eq_refl)
    as (rows & Hlist & Hkeys & _ & Hnodup & _); [discriminate|exact Hrun|].
  exists t, st', rows. repeat split; try assumption.
  apply Hnodup. cbn. repeat constructor; cbn; intuition discriminate.
Defined.
